(** * Hello Triangle: the call sequence of [main], [processInput] and
      [framebuffer_size_callback]

    The program of [main (explanations).cpp] is a straight line of calls into
    GLFW, GLAD and OpenGL with two early exits, two logged-only error checks
    and one render loop.  It is embedded here as a program in a small
    state-and-exit monad: every call into a library is recorded, in issue
    order, in the log of the world, every value a library hands back is read
    from an [environment], and the render loop runs on a bound of iterations
    so that a window the user never closes is a run that is still going. *)

From Stdlib Require Import ZArith QArith List String Ascii Bool Lia.
Import ListNotations.
Local Open Scope Z_scope.

(** ** Enumerations of the two library headers

    Only the names matter to the program; the members it does not use are
    listed so that a statement such as "the mode is [GL_LINE]" says
    something. *)

Inductive hint : Type :=
  | GLFW_CONTEXT_VERSION_MAJOR
  | GLFW_CONTEXT_VERSION_MINOR
  | GLFW_OPENGL_PROFILE.

Inductive hint_value : Type :=
  | int_value (n : Z)
  | GLFW_OPENGL_ANY_PROFILE
  | GLFW_OPENGL_CORE_PROFILE
  | GLFW_OPENGL_COMPAT_PROFILE.

Inductive key : Type :=
  | GLFW_KEY_ESCAPE
  | GLFW_KEY_other (code : Z).

Inductive action : Type :=
  | GLFW_RELEASE
  | GLFW_PRESS
  | GLFW_REPEAT.

Inductive shader_type : Type :=
  | GL_VERTEX_SHADER
  | GL_FRAGMENT_SHADER.

Inductive shader_parameter : Type :=
  | GL_COMPILE_STATUS
  | GL_DELETE_STATUS.

Inductive program_parameter : Type :=
  | GL_LINK_STATUS
  | GL_VALIDATE_STATUS.

Inductive buffer_target : Type :=
  | GL_ARRAY_BUFFER
  | GL_ELEMENT_ARRAY_BUFFER.

Inductive buffer_usage : Type :=
  | GL_STREAM_DRAW
  | GL_STATIC_DRAW
  | GL_DYNAMIC_DRAW.

Inductive component_type : Type :=
  | GL_FLOAT
  | GL_UNSIGNED_BYTE
  | GL_UNSIGNED_SHORT
  | GL_UNSIGNED_INT.

Inductive face : Type :=
  | GL_FRONT
  | GL_BACK
  | GL_FRONT_AND_BACK.

Inductive polygon_mode : Type :=
  | GL_POINT
  | GL_LINE
  | GL_FILL.

Inductive primitive : Type :=
  | GL_POINTS
  | GL_LINES
  | GL_TRIANGLES.

Inductive clear_mask : Type :=
  | GL_COLOR_BUFFER_BIT
  | GL_DEPTH_BUFFER_BIT.

(** ** Data of the program *)

(** A [float] literal is kept as the decimal fraction written in the source;
    the program performs no arithmetic on them. *)
Definition float : Type := Q.

Definition sizeof_float : Z := 4.
Definition sizeof_unsigned_int : Z := 4.

Definition SCR_WIDTH : Z := 800.
Definition SCR_HEIGHT : Z := 600.

Definition nl : string := String (ascii_of_nat 10) EmptyString.

(** The text a C string literal denotes stops at its first NUL, so the
    trailing backslash-zero of both literals is not part of the source that
    [glShaderSource] reads. *)
Definition vertexShaderSource : string :=
  "#version 330 core" ++ nl ++
  "layout (location = 0) in vec3 aPos;" ++ nl ++
  "void main()" ++ nl ++
  "{" ++ nl ++
  "   gl_Position = vec4(aPos.x, aPos.y, aPos.z, 1.0);" ++ nl ++
  "}".

Definition fragmentShaderSource : string :=
  "#version 330 core" ++ nl ++
  "out vec4 FragColor;" ++ nl ++
  "void main()" ++ nl ++
  "{" ++ nl ++
  "   FragColor = vec4(1.0f, 0.5f, 0.2f, 1.0f);" ++ nl ++
  "}" ++ nl.

Definition vertices : list float :=
  [ 0.5;  0.5; 0.0;     (* top right *)
    0.5; -0.5; 0.0;     (* bottom right *)
   -0.5; -0.5; 0.0;     (* bottom left *)
   -0.5;  0.5; 0.0 ]%Q. (* top left *)

Definition indices : list Z :=
  [ 0; 2; 3;    (* first triangle *)
    0; 1; 2 ].  (* second triangle *)

(** What a [glBufferData] call is handed: one of the two arrays. *)
Inductive buffer_contents : Type :=
  | floats (data : list float)
  | unsigned_ints (data : list Z).

Definition sizeof (d : buffer_contents) : Z :=
  match d with
  | floats l => sizeof_float * Z.of_nat (List.length l)
  | unsigned_ints l => sizeof_unsigned_int * Z.of_nat (List.length l)
  end.

(** ** Standard output *)

(** The four statements that write to [std::cout], each with the info log
    it streams where it streams one. *)
Inductive message : Type :=
  | Failed_to_create_GLFW_Window
  | Failed_to_initialize_GLAD
  | VERTEX_COMPILATION_FAILED (infoLog : string)
  | PROGRAM_LINKING_FAILED (infoLog : string).

(** The characters the statement writes, [std::endl] included. *)
Definition text (m : message) : string :=
  match m with
  | Failed_to_create_GLFW_Window => "Failed to create GLFW Window" ++ nl
  | Failed_to_initialize_GLAD => "Failed to initialize GLAD" ++ nl
  | VERTEX_COMPILATION_FAILED infoLog =>
      "ERROR::SHADER::VERTEX::COMPILATION_FAILED" ++ nl ++ infoLog ++ nl
  | PROGRAM_LINKING_FAILED infoLog =>
      "ERROR::SHADER::PROGRAM::LINKING_FAILED" ++ nl ++ infoLog ++ nl
  end.

(** ** Calls

    One constructor per library entry point, with the arguments the program
    passes by value; the pointer to the one window, the NULL arguments and
    the addresses results are written to are left out.  Object names
    ([unsigned int]) are [Z].  [glDrawArrays], [glBufferSubData] and
    [glfwDestroyWindow] are entry points the program never reaches (the
    first survives in a comment of the loop). *)
Inductive call : Type :=
  | glfwInit
  | glfwWindowHint (h : hint) (v : hint_value)
  | glfwCreateWindow (width height : Z) (title : string)
  | glfwTerminate
  | glfwDestroyWindow
  | glfwMakeContextCurrent
  | glfwSetFramebufferSizeCallback
  | gladLoadGLLoader
  | glCreateShader (t : shader_type)
  | glShaderSource (shader : Z) (count : Z) (source : string)
  | glCompileShader (shader : Z)
  | glGetShaderiv (shader : Z) (pname : shader_parameter)
  | glGetShaderInfoLog (shader : Z) (bufSize : Z)
  | glCreateProgram
  | glAttachShader (program shader : Z)
  | glLinkProgram (program : Z)
  | glGetProgramiv (program : Z) (pname : program_parameter)
  | glGetProgramInfoLog (program : Z) (bufSize : Z)
  | glDeleteShader (shader : Z)
  | glGenVertexArrays (n : Z)
  | glGenBuffers (n : Z)
  | glBindVertexArray (array : Z)
  | glBindBuffer (target : buffer_target) (buffer : Z)
  | glBufferData (target : buffer_target) (size : Z) (data : buffer_contents)
                 (usage : buffer_usage)
  | glBufferSubData (target : buffer_target) (offset : Z)
                    (data : buffer_contents)
  | glVertexAttribPointer (index size : Z) (type : component_type)
                          (normalized : bool) (stride pointer : Z)
  | glEnableVertexAttribArray (index : Z)
  | glPolygonMode (f : face) (mode : polygon_mode)
  | glfwWindowShouldClose
  | glfwGetKey (k : key)
  | glfwSetWindowShouldClose (value : bool)
  | glClearColor (red green blue alpha : float)
  | glClear (mask : clear_mask)
  | glUseProgram (program : Z)
  | glDrawArrays (mode : primitive) (first count : Z)
  | glDrawElements (mode : primitive) (count : Z) (type : component_type)
                   (offset : Z)
  | glfwSwapBuffers
  | glfwPollEvents
  | glViewport (x y width height : Z)
  | glDeleteVertexArrays (n : Z) (array : Z)
  | glDeleteBuffers (n : Z) (buffer : Z)
  | cout (m : message).

Arguments glClearColor (red green blue alpha)%_Q_scope.

(** ** The window and the world *)

(** What GLFW keeps for the one window: the close flag that
    [glfwWindowShouldClose] reads and the last reported state of each key. *)
Record window : Type := mkWindow {
  should_close : bool;
  keys : key -> action
}.

Definition key_eqb (a b : key) : bool :=
  match a, b with
  | GLFW_KEY_ESCAPE, GLFW_KEY_ESCAPE => true
  | GLFW_KEY_other m, GLFW_KEY_other n => Z.eqb m n
  | _, _ => false
  end.

Definition action_eqb (a b : action) : bool :=
  match a, b with
  | GLFW_RELEASE, GLFW_RELEASE => true
  | GLFW_PRESS, GLFW_PRESS => true
  | GLFW_REPEAT, GLFW_REPEAT => true
  | _, _ => false
  end.

Definition set_should_close (value : bool) (w : window) : window :=
  {| should_close := value; keys := keys w |}.

Definition set_key (k : key) (a : action) (w : window) : window :=
  {| should_close := should_close w;
     keys := fun k' => if key_eqb k' k then a else keys w k' |}.

(** What one [glfwPollEvents] can deliver. *)
Inductive event : Type :=
  | KeyEvent (k : key) (a : action)
  | CloseRequested
  | FramebufferResized (width height : Z).

(** Everything the libraries, the driver and the user decide. *)
Record environment : Type := mkEnvironment {
  window_created : bool;          (* glfwCreateWindow did not return NULL *)
  window0 : window;               (* the window it handed out *)
  glad_loaded : bool;             (* gladLoadGLLoader returned non-zero *)
  shader_name : shader_type -> Z; (* glCreateShader *)
  program_name : Z;               (* glCreateProgram *)
  vertex_array_name : Z;          (* glGenVertexArrays *)
  buffer_name : nat -> Z;         (* the k-th glGenBuffers *)
  compile_status : Z -> bool;     (* glGetShaderiv GL_COMPILE_STATUS *)
  shader_info_log : Z -> string;
  link_status : Z -> bool;        (* glGetProgramiv GL_LINK_STATUS *)
  program_info_log : Z -> string;
  pending : nat -> list event     (* delivered by the k-th glfwPollEvents *)
}.

Record world : Type := mkWorld {
  log : list call;        (* calls and output so far, oldest first *)
  win : window;           (* the window, consulted once it has been created *)
  resize_callback : bool; (* framebuffer_size_callback is registered *)
  generated : nat;        (* glGenBuffers calls so far *)
  polled : nat            (* glfwPollEvents calls so far *)
}.

Definition record (c : call) (w : world) : world :=
  {| log := log w ++ [c]; win := win w;
     resize_callback := resize_callback w;
     generated := generated w; polled := polled w |}.

Definition with_window (f : window -> window) (w : world) : world :=
  {| log := log w; win := f (win w);
     resize_callback := resize_callback w;
     generated := generated w; polled := polled w |}.

(** ** Programs

    A program step either hands a value to the rest of the program, leaves
    [main] with a [return] status, or is cut off because the bound on loop
    iterations is used up. *)
Inductive result (A : Type) : Type :=
  | Value (a : A)
  | Return (status : Z)
  | OutOfFuel.

Arguments Value {A} a.
Arguments Return {A} status.
Arguments OutOfFuel {A}.

Definition prog (A : Type) : Type := world -> result A * world.

Definition ret {A : Type} (a : A) : prog A := fun w => (Value a, w).

Definition bind {A B : Type} (m : prog A) (k : A -> prog B) : prog B :=
  fun w =>
    match m w with
    | (Value a, w') => k a w'
    | (Return status, w') => (Return status, w')
    | (OutOfFuel, w') => (OutOfFuel, w')
    end.

Definition return_ {A : Type} (status : Z) : prog A :=
  fun w => (Return status, w).

Definition starve {A : Type} : prog A := fun w => (OutOfFuel, w).

Notation "x <- m ;; k" := (bind m (fun x => k))
  (at level 61, m at next level, right associativity).
Notation "m ;; k" := (bind m (fun _ => k))
  (at level 61, right associativity).

(** A C [if] without [else]. *)
Definition when (b : bool) (body : prog unit) : prog unit :=
  if b then body else ret tt.

(** A call whose result, if it has one, the program ignores. *)
Definition issue (c : call) : prog unit :=
  fun w => (Value tt, record c w).

Section Program.

Variable E : environment.

(** *** Library calls that answer or change the window *)

(** [true] stands for a pointer other than NULL. *)
Definition call_glfwCreateWindow (width height : Z) (title : string)
  : prog bool :=
  issue (glfwCreateWindow width height title) ;; ret (window_created E).

Definition call_glfwSetFramebufferSizeCallback : prog unit :=
  fun w =>
    (Value tt,
     {| log := log w ++ [glfwSetFramebufferSizeCallback]; win := win w;
        resize_callback := true;
        generated := generated w; polled := polled w |}).

Definition call_gladLoadGLLoader : prog bool :=
  issue gladLoadGLLoader ;; ret (glad_loaded E).

Definition call_glCreateShader (t : shader_type) : prog Z :=
  issue (glCreateShader t) ;; ret (shader_name E t).

(** The program reads [success] only through [!success]; the one
    parameter it asks for is [GL_COMPILE_STATUS]. *)
Definition call_glGetShaderiv (shader : Z) (pname : shader_parameter)
  : prog bool :=
  issue (glGetShaderiv shader pname) ;; ret (compile_status E shader).

(** At most [bufSize - 1] characters fit before the terminating NUL. *)
Definition call_glGetShaderInfoLog (shader bufSize : Z) : prog string :=
  issue (glGetShaderInfoLog shader bufSize) ;;
  ret (substring 0 (Z.to_nat (bufSize - 1)) (shader_info_log E shader)).

Definition call_glCreateProgram : prog Z :=
  issue glCreateProgram ;; ret (program_name E).

(** Likewise for [GL_LINK_STATUS]. *)
Definition call_glGetProgramiv (program : Z) (pname : program_parameter)
  : prog bool :=
  issue (glGetProgramiv program pname) ;; ret (link_status E program).

Definition call_glGetProgramInfoLog (program bufSize : Z) : prog string :=
  issue (glGetProgramInfoLog program bufSize) ;;
  ret (substring 0 (Z.to_nat (bufSize - 1)) (program_info_log E program)).

Definition call_glGenVertexArrays (n : Z) : prog Z :=
  issue (glGenVertexArrays n) ;; ret (vertex_array_name E).

Definition call_glGenBuffers (n : Z) : prog Z :=
  fun w =>
    (Value (buffer_name E (generated w)),
     {| log := log w ++ [glGenBuffers n]; win := win w;
        resize_callback := resize_callback w;
        generated := S (generated w); polled := polled w |}).

Definition call_glfwWindowShouldClose : prog bool :=
  fun w => (Value (should_close (win w)), record glfwWindowShouldClose w).

Definition call_glfwGetKey (k : key) : prog action :=
  fun w => (Value (keys (win w) k), record (glfwGetKey k) w).

Definition call_glfwSetWindowShouldClose (value : bool) : prog unit :=
  fun w =>
    (Value tt,
     with_window (set_should_close value)
                 (record (glfwSetWindowShouldClose value) w)).

(** *** The two functions next to [main] *)

Definition framebuffer_size_callback (width height : Z) : prog unit :=
  issue (glViewport 0 0 width height).

Definition processInput : prog unit :=
  a <- call_glfwGetKey GLFW_KEY_ESCAPE ;;
  when (action_eqb a GLFW_PRESS)
       (call_glfwSetWindowShouldClose true).

(** *** Event delivery *)

Definition deliver (ev : event) : prog unit :=
  match ev with
  | KeyEvent k a => fun w => (Value tt, with_window (set_key k a) w)
  | CloseRequested =>
      fun w => (Value tt, with_window (set_should_close true) w)
  | FramebufferResized width height =>
      fun w =>
        if resize_callback w
        then framebuffer_size_callback width height w
        else (Value tt, w)
  end.

Fixpoint deliver_all (evs : list event) : prog unit :=
  match evs with
  | [] => ret tt
  | ev :: evs' => deliver ev ;; deliver_all evs'
  end.

Definition call_glfwPollEvents : prog unit :=
  fun w =>
    deliver_all (pending E (polled w))
      {| log := log w ++ [glfwPollEvents]; win := win w;
         resize_callback := resize_callback w;
         generated := generated w; polled := S (polled w) |}.

(** *** The render loop: [while (!glfwWindowShouldClose(window))] *)

Fixpoint render_loop (shaderProgram VAO : Z) (fuel : nat) : prog unit :=
  match fuel with
  | O => starve
  | S fuel' =>
      closing <- call_glfwWindowShouldClose ;;
      if closing then ret tt
      else
        processInput ;;
        issue (glClearColor 0.2 0.3 0.3 1.0) ;;
        issue (glClear GL_COLOR_BUFFER_BIT) ;;
        issue (glUseProgram shaderProgram) ;;
        issue (glBindVertexArray VAO) ;;
        issue (glDrawElements GL_TRIANGLES 6 GL_UNSIGNED_INT 0) ;;
        issue glfwSwapBuffers ;;
        call_glfwPollEvents ;;
        render_loop shaderProgram VAO fuel'
  end.

(** *** [main] *)

Definition main (fuel : nat) : prog unit :=
  issue glfwInit ;;
  issue (glfwWindowHint GLFW_CONTEXT_VERSION_MAJOR (int_value 3)) ;;
  issue (glfwWindowHint GLFW_CONTEXT_VERSION_MINOR (int_value 3)) ;;
  issue (glfwWindowHint GLFW_OPENGL_PROFILE GLFW_OPENGL_CORE_PROFILE) ;;
  window <- call_glfwCreateWindow SCR_WIDTH SCR_HEIGHT
                                  "OpenGL - Creating a window" ;;
  when (negb window)
       (issue (cout Failed_to_create_GLFW_Window) ;;
        issue glfwTerminate ;;
        return_ (-1)) ;;
  issue glfwMakeContextCurrent ;;
  call_glfwSetFramebufferSizeCallback ;;
  loaded <- call_gladLoadGLLoader ;;
  when (negb loaded)
       (issue (cout Failed_to_initialize_GLAD) ;;
        return_ (-1)) ;;
  (* vertex shader *)
  vertexShader <- call_glCreateShader GL_VERTEX_SHADER ;;
  issue (glShaderSource vertexShader 1 vertexShaderSource) ;;
  issue (glCompileShader vertexShader) ;;
  success <- call_glGetShaderiv vertexShader GL_COMPILE_STATUS ;;
  when (negb success)
       (infoLog <- call_glGetShaderInfoLog vertexShader 512 ;;
        issue (cout (VERTEX_COMPILATION_FAILED infoLog))) ;;
  (* fragment shader *)
  fragmentShader <- call_glCreateShader GL_FRAGMENT_SHADER ;;
  issue (glShaderSource fragmentShader 1 fragmentShaderSource) ;;
  issue (glCompileShader fragmentShader) ;;
  (* shader program *)
  shaderProgram <- call_glCreateProgram ;;
  issue (glAttachShader shaderProgram vertexShader) ;;
  issue (glAttachShader shaderProgram fragmentShader) ;;
  issue (glLinkProgram shaderProgram) ;;
  success <- call_glGetProgramiv shaderProgram GL_LINK_STATUS ;;
  when (negb success)
       (infoLog <- call_glGetProgramInfoLog shaderProgram 512 ;;
        issue (cout (PROGRAM_LINKING_FAILED infoLog))) ;;
  issue (glDeleteShader vertexShader) ;;
  issue (glDeleteShader fragmentShader) ;;
  (* vertex array object, vertex buffer object, element buffer object *)
  VAO <- call_glGenVertexArrays 1 ;;
  VBO <- call_glGenBuffers 1 ;;
  EBO <- call_glGenBuffers 1 ;;
  issue (glBindVertexArray VAO) ;;
  issue (glBindBuffer GL_ARRAY_BUFFER VBO) ;;
  issue (glBufferData GL_ARRAY_BUFFER (sizeof (floats vertices))
                      (floats vertices) GL_STATIC_DRAW) ;;
  issue (glBindBuffer GL_ELEMENT_ARRAY_BUFFER EBO) ;;
  issue (glBufferData GL_ELEMENT_ARRAY_BUFFER
                      (sizeof (unsigned_ints indices))
                      (unsigned_ints indices) GL_STATIC_DRAW) ;;
  issue (glVertexAttribPointer 0 3 GL_FLOAT false (3 * sizeof_float) 0) ;;
  issue (glEnableVertexAttribArray 0) ;;
  issue (glPolygonMode GL_FRONT_AND_BACK GL_LINE) ;;
  render_loop shaderProgram VAO fuel ;;
  issue (glDeleteVertexArrays 1 VAO) ;;
  issue (glDeleteBuffers 1 VBO) ;;
  issue (glDeleteBuffers 1 EBO) ;;
  issue glfwTerminate ;;
  return_ 0.

Definition start : world :=
  {| log := []; win := window0 E; resize_callback := false;
     generated := O; polled := O |}.

(** The calls and output of a run, the status [main] returned if it has
    returned, and the world it stopped in. *)
Definition run (fuel : nat) : result unit * world := main fuel start.

Definition trace (fuel : nat) : list call := log (snd (run fuel)).

Definition exit_status (fuel : nat) : option Z :=
  match fst (run fuel) with
  | Return status => Some status
  | _ => None
  end.

End Program.

(** ** The shape of a run

    The calls [main] issues, written out phase by phase.  These lists are
    what the program is proved to log; the statements further down are about
    [trace] and [exit_status] and use these only in their proofs. *)

Section Calls.

Variable E : environment.

Definition vertexShader : Z := shader_name E GL_VERTEX_SHADER.
Definition fragmentShader : Z := shader_name E GL_FRAGMENT_SHADER.
Definition shaderProgram : Z := program_name E.
Definition VAO : Z := vertex_array_name E.
Definition VBO : Z := buffer_name E 0.
Definition EBO : Z := buffer_name E 1.

Definition window_calls : list call :=
  [ glfwInit;
    glfwWindowHint GLFW_CONTEXT_VERSION_MAJOR (int_value 3);
    glfwWindowHint GLFW_CONTEXT_VERSION_MINOR (int_value 3);
    glfwWindowHint GLFW_OPENGL_PROFILE GLFW_OPENGL_CORE_PROFILE;
    glfwCreateWindow SCR_WIDTH SCR_HEIGHT "OpenGL - Creating a window" ].

Definition loader_calls : list call :=
  [ glfwMakeContextCurrent;
    glfwSetFramebufferSizeCallback;
    gladLoadGLLoader ].

Definition vertex_check_calls : list call :=
  if compile_status E vertexShader then []
  else [ glGetShaderInfoLog vertexShader 512;
         cout (VERTEX_COMPILATION_FAILED
                 (substring 0 511 (shader_info_log E vertexShader))) ].

Definition link_check_calls : list call :=
  if link_status E shaderProgram then []
  else [ glGetProgramInfoLog shaderProgram 512;
         cout (PROGRAM_LINKING_FAILED
                 (substring 0 511 (program_info_log E shaderProgram))) ].

Definition shader_calls : list call :=
  [ glCreateShader GL_VERTEX_SHADER;
    glShaderSource vertexShader 1 vertexShaderSource;
    glCompileShader vertexShader;
    glGetShaderiv vertexShader GL_COMPILE_STATUS ] ++
  vertex_check_calls ++
  [ glCreateShader GL_FRAGMENT_SHADER;
    glShaderSource fragmentShader 1 fragmentShaderSource;
    glCompileShader fragmentShader;
    glCreateProgram;
    glAttachShader shaderProgram vertexShader;
    glAttachShader shaderProgram fragmentShader;
    glLinkProgram shaderProgram;
    glGetProgramiv shaderProgram GL_LINK_STATUS ] ++
  link_check_calls ++
  [ glDeleteShader vertexShader;
    glDeleteShader fragmentShader ].

Definition buffer_calls : list call :=
  [ glGenVertexArrays 1;
    glGenBuffers 1;
    glGenBuffers 1;
    glBindVertexArray VAO;
    glBindBuffer GL_ARRAY_BUFFER VBO;
    glBufferData GL_ARRAY_BUFFER 48 (floats vertices) GL_STATIC_DRAW;
    glBindBuffer GL_ELEMENT_ARRAY_BUFFER EBO;
    glBufferData GL_ELEMENT_ARRAY_BUFFER 24 (unsigned_ints indices)
                 GL_STATIC_DRAW;
    glVertexAttribPointer 0 3 GL_FLOAT false 12 0;
    glEnableVertexAttribArray 0;
    glPolygonMode GL_FRONT_AND_BACK GL_LINE ].

(** One turn of the loop: the test, [processInput] with or without the
    close request, the frame, and the viewport calls of the resize events
    that [glfwPollEvents] delivered. *)
Definition frame_calls (f : bool * list (Z * Z)) : list call :=
  [ glfwWindowShouldClose; glfwGetKey GLFW_KEY_ESCAPE ] ++
  (if fst f then [ glfwSetWindowShouldClose true ] else []) ++
  [ glClearColor 0.2 0.3 0.3 1.0;
    glClear GL_COLOR_BUFFER_BIT;
    glUseProgram shaderProgram;
    glBindVertexArray VAO;
    glDrawElements GL_TRIANGLES 6 GL_UNSIGNED_INT 0;
    glfwSwapBuffers;
    glfwPollEvents ] ++
  map (fun s => glViewport 0 0 (fst s) (snd s)) (snd f).

Definition cleanup_calls : list call :=
  [ glDeleteVertexArrays 1 VAO;
    glDeleteBuffers 1 VBO;
    glDeleteBuffers 1 EBO;
    glfwTerminate ].

(** The four ways a run can look. *)
Inductive shape : option Z -> list call -> Prop :=
  | shape_no_window :
      window_created E = false ->
      shape (Some (-1))
            (window_calls ++
             [cout Failed_to_create_GLFW_Window; glfwTerminate])
  | shape_no_loader :
      window_created E = true -> glad_loaded E = false ->
      shape (Some (-1))
            (window_calls ++ loader_calls ++
             [cout Failed_to_initialize_GLAD])
  | shape_running (fs : list (bool * list (Z * Z))) :
      window_created E = true -> glad_loaded E = true ->
      shape None
            (window_calls ++ loader_calls ++ shader_calls ++
             buffer_calls ++ flat_map frame_calls fs)
  | shape_finished (fs : list (bool * list (Z * Z))) :
      window_created E = true -> glad_loaded E = true ->
      shape (Some 0)
            (window_calls ++ loader_calls ++ shader_calls ++
             buffer_calls ++ flat_map frame_calls fs ++
             [glfwWindowShouldClose] ++ cleanup_calls).

(** The world in which the render loop is entered. *)
Definition ready : world :=
  {| log := window_calls ++ loader_calls ++ shader_calls ++ buffer_calls;
     win := window0 E; resize_callback := true;
     generated := 2; polled := 0 |}.

(** The world after one turn of the loop that starts in [w] with the
    window not closing. *)
Definition after_turn (w : world) : world :=
  snd (call_glfwPollEvents E
         (record glfwSwapBuffers
            (record (glDrawElements GL_TRIANGLES 6 GL_UNSIGNED_INT 0)
               (record (glBindVertexArray VAO)
                  (record (glUseProgram shaderProgram)
                     (record (glClear GL_COLOR_BUFFER_BIT)
                        (record (glClearColor 0.2 0.3 0.3 1.0)
                           (snd (processInput
                                   (record glfwWindowShouldClose w)))))))))).

End Calls.

(** ** Observations on a log *)

Definition is_draw (c : call) : bool :=
  match c with
  | glDrawArrays _ _ _ | glDrawElements _ _ _ _ => true
  | _ => false
  end.

Definition is_buffer_write (c : call) : bool :=
  match c with
  | glBufferData _ _ _ _ | glBufferSubData _ _ _ => true
  | _ => false
  end.

Definition is_polygon_mode (c : call) : bool :=
  match c with
  | glPolygonMode _ _ => true
  | _ => false
  end.

(** The test of the [while]. *)
Definition is_loop_test (c : call) : bool :=
  match c with
  | glfwWindowShouldClose => true
  | _ => false
  end.

Definition is_create_window (c : call) : bool :=
  match c with
  | glfwCreateWindow _ _ _ => true
  | _ => false
  end.

Definition is_loader (c : call) : bool :=
  match c with
  | gladLoadGLLoader => true
  | _ => false
  end.

Definition is_compile (c : call) : bool :=
  match c with
  | glCompileShader _ => true
  | _ => false
  end.

Definition is_link (c : call) : bool :=
  match c with
  | glLinkProgram _ => true
  | _ => false
  end.

Definition is_shader_query (c : call) : bool :=
  match c with
  | glGetShaderiv _ _ => true
  | _ => false
  end.

(** The two calls that give back what GLFW holds. *)
Definition is_release (c : call) : bool :=
  match c with
  | glfwTerminate | glfwDestroyWindow => true
  | _ => false
  end.

(** What a log wrote to standard output. *)
Fixpoint output (l : list call) : list message :=
  match l with
  | [] => []
  | cout m :: l' => m :: output l'
  | _ :: l' => output l'
  end.

(** The triangles a draw call assembles from its vertices. *)
Definition triangles (c : call) : Z :=
  match c with
  | glDrawArrays GL_TRIANGLES _ count => count / 3
  | glDrawElements GL_TRIANGLES count _ _ => count / 3
  | _ => 0
  end.

(** A log cut at every test of the loop: what precedes the first test, and
    then one list per test, each from its test up to the next one. *)
Fixpoint split_turns (l : list call) : list call * list (list call) :=
  match l with
  | [] => ([], [])
  | c :: l' =>
      let (first, rest) := split_turns l' in
      if is_loop_test c then ([], (c :: first) :: rest)
      else (c :: first, rest)
  end.

(** No test of the loop in the list. *)
Definition test_free (l : list call) : bool :=
  forallb (fun c => negb (is_loop_test c)) l.

Definition before_loop (l : list call) : list call := fst (split_turns l).

Definition turns (l : list call) : list (list call) := snd (split_turns l).

Definition from_loop (l : list call) : list call := List.concat (turns l).

(** The calls a program issues when started in [w]. *)
Definition calls_of {A : Type} (m : prog A) (w : world) : list call :=
  skipn (List.length (log w)) (log (snd (m w))).

(** *** Window hints *)

Definition hint_eqb (a b : hint) : bool :=
  match a, b with
  | GLFW_CONTEXT_VERSION_MAJOR, GLFW_CONTEXT_VERSION_MAJOR => true
  | GLFW_CONTEXT_VERSION_MINOR, GLFW_CONTEXT_VERSION_MINOR => true
  | GLFW_OPENGL_PROFILE, GLFW_OPENGL_PROFILE => true
  | _, _ => false
  end.

Definition hint_table : Type := hint -> option hint_value.

Definition no_hints : hint_table := fun _ => None.

Definition set_hint (h : hint) (v : hint_value) (t : hint_table)
  : hint_table :=
  fun h' => if hint_eqb h' h then Some v else t h'.

(** The hints in force at the first [glfwCreateWindow] of a log, the last
    setting of each hint winning; [None] when no window is ever asked for. *)
Fixpoint hints_at_creation (t : hint_table) (l : list call)
  : option hint_table :=
  match l with
  | [] => None
  | glfwWindowHint h v :: l' => hints_at_creation (set_hint h v t) l'
  | glfwCreateWindow _ _ _ :: _ => Some t
  | _ :: l' => hints_at_creation t l'
  end.

(** What the hint [h] is set to when the log asks for its window. *)
Definition requested (l : list call) (h : hint) : option hint_value :=
  match hints_at_creation no_hints l with
  | Some t => t h
  | None => None
  end.

(** *** Phases *)

Inductive phase : Type :=
  | Initialization
  | Shaders
  | Buffers
  | RenderLoop
  | Cleanup.

Definition phase_eqb (p q : phase) : bool :=
  match p, q with
  | Initialization, Initialization => true
  | Shaders, Shaders => true
  | Buffers, Buffers => true
  | RenderLoop, RenderLoop => true
  | Cleanup, Cleanup => true
  | _, _ => false
  end.

(** The phase a call belongs to by what it does.  [glBindVertexArray] is
    listed under the buffers and is the one call the loop issues as well. *)
Definition phase_of (c : call) : phase :=
  match c with
  | glfwInit | glfwWindowHint _ _ | glfwCreateWindow _ _ _
  | glfwMakeContextCurrent | glfwSetFramebufferSizeCallback
  | gladLoadGLLoader
  | cout Failed_to_create_GLFW_Window | cout Failed_to_initialize_GLAD =>
      Initialization
  | glCreateShader _ | glShaderSource _ _ _ | glCompileShader _
  | glGetShaderiv _ _ | glGetShaderInfoLog _ _ | glCreateProgram
  | glAttachShader _ _ | glLinkProgram _ | glGetProgramiv _ _
  | glGetProgramInfoLog _ _ | glDeleteShader _
  | cout (VERTEX_COMPILATION_FAILED _) | cout (PROGRAM_LINKING_FAILED _) =>
      Shaders
  | glGenVertexArrays _ | glGenBuffers _ | glBindVertexArray _
  | glBindBuffer _ _ | glBufferData _ _ _ _ | glBufferSubData _ _ _
  | glVertexAttribPointer _ _ _ _ _ _ | glEnableVertexAttribArray _
  | glPolygonMode _ _ =>
      Buffers
  | glfwWindowShouldClose | glfwGetKey _ | glfwSetWindowShouldClose _
  | glClearColor _ _ _ _ | glClear _ | glUseProgram _
  | glDrawArrays _ _ _ | glDrawElements _ _ _ _
  | glfwSwapBuffers | glfwPollEvents | glViewport _ _ _ _ =>
      RenderLoop
  | glDeleteVertexArrays _ _ | glDeleteBuffers _ _
  | glfwTerminate | glfwDestroyWindow =>
      Cleanup
  end.

Definition in_phase (p : phase) (c : call) : bool :=
  phase_eqb p (phase_of c) ||
  match c, p with
  | glBindVertexArray _, RenderLoop => true
  | _, _ => false
  end.

(** *** Vertex fetch *)

(** The position attribute of vertex [i]: three consecutive floats, three
    floats apart, from the start of the array, as [glVertexAttribPointer]
    lays them out; [None] when any of the three lies outside the array. *)
Definition vertex (i : Z) : option (float * float * float) :=
  if i <? 0 then None
  else
    let k := (3 * Z.to_nat i)%nat in
    match nth_error vertices k,
          nth_error vertices (k + 1),
          nth_error vertices (k + 2) with
    | Some x, Some y, Some z => Some (x, y, z)
    | _, _, _ => None
    end.

(** *** Sample environments *)

Definition idle : window :=
  {| should_close := false; keys := fun _ => GLFW_RELEASE |}.

(** Shader names 1 and 2, program 3, vertex array 1, buffers 1 and 2; the
    first poll delivers a resize, the second a press of the escape key. *)
Definition sample (created loaded : bool) (compiles : Z -> bool)
           (links : bool) : environment :=
  {| window_created := created;
     window0 := idle;
     glad_loaded := loaded;
     shader_name := fun t =>
       match t with GL_VERTEX_SHADER => 1 | GL_FRAGMENT_SHADER => 2 end;
     program_name := 3;
     vertex_array_name := 1;
     buffer_name := fun k => Z.of_nat (S k);
     compile_status := compiles;
     shader_info_log := fun _ => "0(5) : error C0000: syntax error"%string;
     link_status := fun _ => links;
     program_info_log := fun _ => "Fragment info: shader not compiled"%string;
     pending := fun k =>
       match k with
       | 0%nat => [FramebufferResized 640 480]
       | 1%nat => [KeyEvent GLFW_KEY_ESCAPE GLFW_PRESS]
       | _ => []
       end |}.

Definition healthy : environment := sample true true (fun _ => true) true.

Definition no_window : environment := sample false true (fun _ => true) true.

Definition no_loader : environment := sample true false (fun _ => true) true.

(** The driver rejects the fragment shader, and the link fails with it. *)
Definition fragment_rejected : environment :=
  sample true true (fun shader => negb (shader =? 2)) false.


(** The driver rejects the vertex shader, and the link fails with it. *)
Definition vertex_rejected : environment :=
  sample true true (fun shader => negb (shader =? 1)) false.

(** A window on which escape is held down. *)
Definition escape_held : window :=
  {| should_close := false;
     keys := fun k => if key_eqb k GLFW_KEY_ESCAPE then GLFW_PRESS
                      else GLFW_RELEASE |}.

Definition world_with (w : window) : world :=
  {| log := [glfwWindowShouldClose]; win := w; resize_callback := true;
     generated := 2; polled := 0 |}.

(** ** Observations on events and on the turns of the loop *)

(** What an event does to the window, the log left aside. *)
Definition deliver_window (ev : event) (w : window) : window :=
  match ev with
  | KeyEvent k a => set_key k a w
  | CloseRequested => set_should_close true w
  | FramebufferResized _ _ => w
  end.

Fixpoint poll_window (evs : list event) (w : window) : window :=
  match evs with
  | [] => w
  | ev :: evs' => poll_window evs' (deliver_window ev w)
  end.

(** The framebuffer sizes among the events, in order. *)
Fixpoint resizes (evs : list event) : list (Z * Z) :=
  match evs with
  | [] => []
  | FramebufferResized width height :: evs' => (width, height) :: resizes evs'
  | _ :: evs' => resizes evs'
  end.

Definition is_close_request (ev : event) : bool :=
  match ev with
  | CloseRequested => true
  | _ => false
  end.

(** Neither a close request nor a press of the escape key. *)
Definition is_quiet (ev : event) : bool :=
  match ev with
  | CloseRequested => false
  | KeyEvent GLFW_KEY_ESCAPE GLFW_PRESS => false
  | _ => true
  end.

(** The state of the escape key that the events leave behind: that of the
    last event about it, [None] when none is. *)
Fixpoint escape_after (evs : list event) : option action :=
  match evs with
  | [] => None
  | ev :: evs' =>
      match escape_after evs', ev with
      | Some a, _ => Some a
      | None, KeyEvent GLFW_KEY_ESCAPE a => Some a
      | None, _ => None
      end
  end.

(** What [processInput] reads: escape is reported as pressed. *)
Definition escape_pressed (w : window) : bool :=
  action_eqb (keys w GLFW_KEY_ESCAPE) GLFW_PRESS.

(** The world [n] turns of the loop after [w]. *)
Fixpoint world_at (E : environment) (w : world) (n : nat) : world :=
  match n with
  | O => w
  | S n' => world_at E (after_turn E w) n'
  end.

(** Entry points of OpenGL proper, reached through the pointers that the
    loader fills in. *)
Definition is_gl (c : call) : bool :=
  match c with
  | glfwInit | glfwWindowHint _ _ | glfwCreateWindow _ _ _ | glfwTerminate
  | glfwDestroyWindow | glfwMakeContextCurrent
  | glfwSetFramebufferSizeCallback | gladLoadGLLoader
  | glfwWindowShouldClose | glfwGetKey _ | glfwSetWindowShouldClose _
  | glfwSwapBuffers | glfwPollEvents | cout _ => false
  | _ => true
  end.

Definition is_swap (c : call) : bool :=
  match c with
  | glfwSwapBuffers => true
  | _ => false
  end.

Definition is_poll (c : call) : bool :=
  match c with
  | glfwPollEvents => true
  | _ => false
  end.

(** The calls that make up a frame, resize handling left aside. *)
Definition is_frame_step (c : call) : bool :=
  match c with
  | glClearColor _ _ _ _ | glClear _ | glUseProgram _ | glBindVertexArray _
  | glDrawArrays _ _ _ | glDrawElements _ _ _ _
  | glfwSwapBuffers | glfwPollEvents => true
  | _ => false
  end.

(** The rectangles of the [glViewport] calls of a log, in order. *)
Fixpoint viewports (l : list call) : list (Z * Z * Z * Z) :=
  match l with
  | [] => []
  | glViewport x y width height :: l' => (x, y, width, height) :: viewports l'
  | _ :: l' => viewports l'
  end.

(** An environment with an idle window and the given events, in which
    everything else succeeds. *)
Definition with_events (evs : nat -> list event) : environment :=
  {| window_created := true;
     window0 := idle;
     glad_loaded := true;
     shader_name := fun t =>
       match t with GL_VERTEX_SHADER => 1 | GL_FRAGMENT_SHADER => 2 end;
     program_name := 3;
     vertex_array_name := 1;
     buffer_name := fun k => Z.of_nat (S k);
     compile_status := fun _ => true;
     shader_info_log := fun _ => EmptyString;
     link_status := fun _ => true;
     program_info_log := fun _ => EmptyString;
     pending := evs |}.

(** The user resizes twice during the second poll and closes the window
    during the third. *)
Definition closed_by_user : environment :=
  with_events (fun k =>
    match k with
    | 1%nat => [FramebufferResized 640 480; FramebufferResized 1024 768]
    | 2%nat => [CloseRequested]
    | _ => []
    end).

(** Escape goes down during the second poll and up again during the
    fourth. *)
Definition escape_tapped : environment :=
  with_events (fun k =>
    match k with
    | 1%nat => [KeyEvent GLFW_KEY_ESCAPE GLFW_PRESS]
    | 3%nat => [KeyEvent GLFW_KEY_ESCAPE GLFW_RELEASE]
    | _ => []
    end).

(** Nothing but resizes and other keys, for ever. *)
Definition left_alone : environment :=
  with_events (fun k =>
    [FramebufferResized (Z.of_nat k) 600;
     KeyEvent (GLFW_KEY_other 32) GLFW_PRESS]).

(** The calls by which the program reports a compile or link failure. *)
Definition is_diagnostic (c : call) : bool :=
  match c with
  | glGetShaderInfoLog _ _ | glGetProgramInfoLog _ _
  | cout (VERTEX_COMPILATION_FAILED _)
  | cout (PROGRAM_LINKING_FAILED _) => true
  | _ => false
  end.

Definition undiagnosed (l : list call) : list call :=
  filter (fun c => negb (is_diagnostic c)) l.

(** [E] with other compile and link statuses and other info logs. *)
Definition with_statuses (E : environment) (compiles links : Z -> bool)
           (shader_log program_log : Z -> string) : environment :=
  {| window_created := window_created E;
     window0 := window0 E;
     glad_loaded := glad_loaded E;
     shader_name := shader_name E;
     program_name := program_name E;
     vertex_array_name := vertex_array_name E;
     buffer_name := buffer_name E;
     compile_status := compiles;
     shader_info_log := shader_log;
     link_status := links;
     program_info_log := program_log;
     pending := pending E |}.

(** Two worlds alike in everything but the diagnostics in their logs. *)
Definition alike (w w' : world) : Prop :=
  undiagnosed (log w) = undiagnosed (log w') /\
  win w = win w' /\
  resize_callback w = resize_callback w' /\
  generated w = generated w' /\
  polled w = polled w'.

Section Shape.

Variable E : environment.

Lemma deliver_all_log (evs : list event) (w : world) :
  exists (sizes : list (Z * Z)) (w' : world),
    deliver_all evs w = (Value tt, w') /\
    log w' = log w ++ map (fun s => glViewport 0 0 (fst s) (snd s)) sizes.
Proof.
  revert w; induction evs as [| ev evs IH]; intro w.
  - exists [], w. simpl. now rewrite app_nil_r.
  - destruct ev as [k a | | width height]; simpl; unfold bind; simpl.
    + destruct (IH (with_window (set_key k a) w)) as (sizes & w' & Hrun & Hlog).
      exists sizes, w'. now rewrite Hrun.
    + destruct (IH (with_window (set_should_close true) w))
        as (sizes & w' & Hrun & Hlog).
      exists sizes, w'. now rewrite Hrun.
    + destruct (resize_callback w).
      * unfold framebuffer_size_callback, issue.
        destruct (IH (record (glViewport 0 0 width height) w))
          as (sizes & w' & Hrun & Hlog).
        exists ((width, height) :: sizes), w'. rewrite Hrun. split; [easy |].
        rewrite Hlog. simpl. now rewrite <- app_assoc.
      * destruct (IH w) as (sizes & w' & Hrun & Hlog).
        exists sizes, w'. now rewrite Hrun.
Qed.

Lemma bind_value {A B : Type} (m : prog A) (k : A -> prog B)
      (w w' : world) (a : A) :
  m w = (Value a, w') -> bind m k w = k a w'.
Proof. intro H. unfold bind. now rewrite H. Qed.

Lemma bind_starved {A B : Type} (m : prog A) (k : A -> prog B)
      (w w' : world) :
  m w = (OutOfFuel, w') -> bind m k w = (OutOfFuel, w').
Proof. intro H. unfold bind. now rewrite H. Qed.

Lemma log_record (c : call) (w : world) : log (record c w) = log w ++ [c].
Proof. reflexivity. Qed.

Lemma bind_issue {B : Type} (c : call) (k : unit -> prog B) (w : world) :
  bind (issue c) k w = k tt (record c w).
Proof. reflexivity. Qed.

Lemma processInput_run (w : world) :
  processInput w =
  (Value tt,
   if action_eqb (keys (win w) GLFW_KEY_ESCAPE) GLFW_PRESS
   then with_window (set_should_close true)
          (record (glfwSetWindowShouldClose true)
             (record (glfwGetKey GLFW_KEY_ESCAPE) w))
   else record (glfwGetKey GLFW_KEY_ESCAPE) w).
Proof.
  unfold processInput, bind, call_glfwGetKey, when. simpl.
  now destruct (action_eqb (keys (win w) GLFW_KEY_ESCAPE) GLFW_PRESS).
Qed.

Lemma glfwPollEvents_log (w : world) :
  exists (sizes : list (Z * Z)) (w' : world),
    call_glfwPollEvents E w = (Value tt, w') /\
    log w' = log w ++ glfwPollEvents ::
               map (fun s => glViewport 0 0 (fst s) (snd s)) sizes.
Proof.
  unfold call_glfwPollEvents.
  match goal with
  | |- context [deliver_all ?evs ?w0] =>
      destruct (deliver_all_log evs w0) as (sizes & w' & Hrun & Hlog)
  end.
  exists sizes, w'. split; [exact Hrun |].
  rewrite Hlog. simpl. now rewrite <- app_assoc.
Qed.

Lemma render_loop_closing (fuel : nat) (w : world) :
  should_close (win w) = true ->
  render_loop E (shaderProgram E) (VAO E) (S fuel) w =
  (Value tt, record glfwWindowShouldClose w).
Proof.
  intro Hclose. simpl. unfold bind at 1. simpl. now rewrite Hclose.
Qed.

Lemma render_loop_turn (fuel : nat) (w : world) :
  should_close (win w) = false ->
  exists (f : bool * list (Z * Z)) (w1 : world),
    render_loop E (shaderProgram E) (VAO E) (S fuel) w =
    render_loop E (shaderProgram E) (VAO E) fuel w1 /\
    log w1 = log w ++ frame_calls E f.
Proof.
  intro Hclose. simpl. unfold bind at 1. simpl. rewrite Hclose.
  rewrite (bind_value _ _ _ _ _ (processInput_run _)).
  rewrite !bind_issue.
  match goal with
  | |- context [bind (call_glfwPollEvents E) _ ?w0] =>
      destruct (glfwPollEvents_log w0) as (sizes & w1 & Hpoll & Hlog1)
  end.
  rewrite (bind_value _ _ _ _ _ Hpoll).
  exists (action_eqb (keys (win w) GLFW_KEY_ESCAPE) GLFW_PRESS, sizes), w1.
  split; [reflexivity |].
  rewrite Hlog1. unfold frame_calls. simpl.
  destruct (action_eqb (keys (win w) GLFW_KEY_ESCAPE) GLFW_PRESS);
    simpl; rewrite <- ?app_assoc; reflexivity.
Qed.

Lemma render_loop_log (fuel : nat) (w : world) :
  exists (fs : list (bool * list (Z * Z))) (w' : world),
    (render_loop E (shaderProgram E) (VAO E) fuel w = (Value tt, w') /\
     log w' = log w ++ flat_map (frame_calls E) fs ++ [glfwWindowShouldClose])
    \/
    (render_loop E (shaderProgram E) (VAO E) fuel w = (OutOfFuel, w') /\
     log w' = log w ++ flat_map (frame_calls E) fs).
Proof.
  revert w; induction fuel as [| fuel IH]; intro w.
  - exists [], w. right. simpl. now rewrite app_nil_r.
  - destruct (should_close (win w)) eqn:Hclose.
    + exists [], (record glfwWindowShouldClose w). left.
      split; [now apply render_loop_closing | reflexivity].
    + destruct (render_loop_turn fuel w Hclose) as (f & w1 & Hstep & Hlog1).
      rewrite Hstep.
      destruct (IH w1) as (fs & w' & [[Hrun Hlog] | [Hrun Hlog]]);
        exists (f :: fs), w'; [left | right];
        (split; [exact Hrun |]);
        rewrite Hlog, Hlog1; cbn [flat_map]; rewrite <- !app_assoc; reflexivity.
Qed.

Lemma render_loop_next (fuel : nat) (w : world) :
  should_close (win w) = false ->
  render_loop E (shaderProgram E) (VAO E) (S fuel) w =
  render_loop E (shaderProgram E) (VAO E) fuel (after_turn E w).
Proof.
  intro Hclose. simpl. unfold bind at 1. simpl. rewrite Hclose.
  unfold after_turn.
  destruct (processInput (record glfwWindowShouldClose w)) as [r w0] eqn:Hp.
  assert (r = Value tt) as -> by (rewrite processInput_run in Hp; congruence).
  rewrite (bind_value _ _ _ _ _ Hp), !bind_issue. cbn [snd].
  match goal with
  | |- context [bind (call_glfwPollEvents E) _ ?w1] =>
      destruct (glfwPollEvents_log w1) as (sizes & w2 & Hpoll & _)
  end.
  now rewrite (bind_value _ _ _ _ _ Hpoll), Hpoll.
Qed.

(** The bound only cuts runs short: a loop that was left on some bound is
    left in the same world on a larger one. *)
Lemma render_loop_more_fuel (fuel : nat) (w w' : world) :
  render_loop E (shaderProgram E) (VAO E) fuel w = (Value tt, w') ->
  render_loop E (shaderProgram E) (VAO E) (S fuel) w = (Value tt, w').
Proof.
  revert w; induction fuel as [| fuel IH]; intros w H.
  - discriminate H.
  - destruct (should_close (win w)) eqn:Hclose.
    + rewrite render_loop_closing in * by assumption. exact H.
    + rewrite render_loop_next in * by assumption. now apply IH.
Qed.

Lemma main_no_window (fuel : nat) :
  window_created E = false ->
  run E fuel =
  (Return (-1),
   {| log := window_calls ++
             [cout Failed_to_create_GLFW_Window; glfwTerminate];
      win := window0 E; resize_callback := false;
      generated := 0; polled := 0 |}).
Proof.
  intro Hw. unfold run, main, call_glfwCreateWindow. rewrite Hw.
  reflexivity.
Qed.

Lemma main_no_loader (fuel : nat) :
  window_created E = true -> glad_loaded E = false ->
  run E fuel =
  (Return (-1),
   {| log := window_calls ++ loader_calls ++
             [cout Failed_to_initialize_GLAD];
      win := window0 E; resize_callback := true;
      generated := 0; polled := 0 |}).
Proof.
  intros Hw Hg.
  unfold run, main, call_glfwCreateWindow, call_gladLoadGLLoader.
  rewrite Hw, Hg. reflexivity.
Qed.

Lemma main_ready (fuel : nat) :
  window_created E = true -> glad_loaded E = true ->
  run E fuel =
  (render_loop E (shaderProgram E) (VAO E) fuel ;;
   issue (glDeleteVertexArrays 1 (VAO E)) ;;
   issue (glDeleteBuffers 1 (VBO E)) ;;
   issue (glDeleteBuffers 1 (EBO E)) ;;
   issue glfwTerminate ;;
   return_ 0) (ready E).
Proof.
  intros Hw Hg.
  cbv beta iota delta
    [run main call_glfwCreateWindow call_gladLoadGLLoader
     call_glGetShaderiv call_glGetProgramiv call_glCreateShader
     call_glCreateProgram bind issue ret when].
  rewrite Hw, Hg. cbv beta iota delta [negb].
  unfold ready, shader_calls, vertex_check_calls, link_check_calls.
  unfold vertexShader, shaderProgram.
  destruct (compile_status E (shader_name E GL_VERTEX_SHADER));
    destruct (link_status E (program_name E)); reflexivity.
Qed.

Theorem run_shape (fuel : nat) : shape E (exit_status E fuel) (trace E fuel).
Proof.
  unfold exit_status, trace.
  destruct (window_created E) eqn:Hw.
  - destruct (glad_loaded E) eqn:Hg.
    + rewrite (main_ready fuel Hw Hg).
      destruct (render_loop_log fuel (ready E))
        as (fs & w' & [[Hrun Hlog] | [Hrun Hlog]]).
      * rewrite (bind_value _ _ _ _ _ Hrun), !bind_issue.
        unfold return_. cbn [fst snd]. rewrite !log_record, Hlog.
        change (log (ready E))
          with (window_calls ++ loader_calls ++ shader_calls E ++
                buffer_calls E).
        rewrite <- !app_assoc.
        exact (shape_finished E fs Hw Hg).
      * rewrite (bind_starved _ _ _ _ Hrun). cbn [fst snd]. rewrite Hlog.
        change (log (ready E))
          with (window_calls ++ loader_calls ++ shader_calls E ++
                buffer_calls E).
        rewrite <- !app_assoc.
        exact (shape_running E fs Hw Hg).
    + rewrite (main_no_loader fuel Hw Hg). now apply shape_no_loader.
  - rewrite (main_no_window fuel Hw). now apply shape_no_window.
Qed.

(** A run that has returned is the same run on any larger bound. *)
Theorem more_fuel_same_run (fuel : nat) (status : Z) :
  exit_status E fuel = Some status -> run E (S fuel) = run E fuel.
Proof.
  unfold exit_status. intro H.
  destruct (window_created E) eqn:Hw.
  - destruct (glad_loaded E) eqn:Hg.
    + rewrite !(main_ready _ Hw Hg) in *.
      destruct (render_loop_log fuel (ready E))
        as (fs & w' & [[Hrun _] | [Hrun _]]).
      * now rewrite (bind_value _ _ _ _ _ Hrun),
          (bind_value _ _ _ _ _ (render_loop_more_fuel fuel _ _ Hrun)).
      * rewrite (bind_starved _ _ _ _ Hrun) in H. discriminate H.
    + now rewrite !(main_no_loader _ Hw Hg).
  - now rewrite !(main_no_window _ Hw).
Qed.

End Shape.

(** ** Facts about logs *)

Lemma filter_viewports (p : call -> bool) (sizes : list (Z * Z)) :
  (forall x y w h, p (glViewport x y w h) = false) ->
  filter p (map (fun s => glViewport 0 0 (fst s) (snd s)) sizes) = [].
Proof.
  intro Hp. induction sizes as [| s sizes IH]; simpl.
  - reflexivity.
  - now rewrite Hp.
Qed.

Lemma filter_outside (p q : call -> bool) (l : list call) :
  forallb q l = true ->
  (forall c, q c = true -> p c = false) ->
  filter p l = [].
Proof.
  intros Hq Hpq. induction l as [| c l IH]; simpl in *.
  - reflexivity.
  - apply andb_prop in Hq as [Hc Hl]. rewrite (Hpq c Hc). now apply IH.
Qed.

Lemma output_app (a b : list call) : output (a ++ b) = output a ++ output b.
Proof.
  induction a as [| c a IH]; simpl.
  - reflexivity.
  - destruct c; simpl; rewrite IH; reflexivity.
Qed.

Lemma output_in_loop (l : list call) :
  forallb (in_phase RenderLoop) l = true -> output l = [].
Proof.
  induction l as [| c l IH]; simpl; intro H.
  - reflexivity.
  - apply andb_prop in H as [Hc Hl].
    destruct c; try (now apply IH).
    destruct m; discriminate Hc.
Qed.

Lemma frame_in_loop (E : environment) (f : bool * list (Z * Z)) :
  forallb (in_phase RenderLoop) (frame_calls E f) = true.
Proof.
  destruct f as [escape sizes]. unfold frame_calls.
  rewrite !forallb_app. cbn [fst snd].
  assert (forallb (in_phase RenderLoop)
            (map (fun s => glViewport 0 0 (fst s) (snd s)) sizes) = true)
    as Hv by (induction sizes; simpl; auto).
  rewrite Hv. now destruct escape.
Qed.

Lemma frames_in_loop (E : environment) (fs : list (bool * list (Z * Z))) :
  forallb (in_phase RenderLoop) (flat_map (frame_calls E) fs) = true.
Proof.
  induction fs as [| f fs IH]; cbn [flat_map].
  - reflexivity.
  - now rewrite forallb_app, frame_in_loop, IH.
Qed.

(** A predicate that no call of the loop satisfies finds nothing in any
    number of turns. *)
Lemma filter_frames (E : environment) (p : call -> bool)
      (fs : list (bool * list (Z * Z))) :
  (forall c, in_phase RenderLoop c = true -> p c = false) ->
  filter p (flat_map (frame_calls E) fs) = [].
Proof.
  intro Hp. apply (filter_outside p (in_phase RenderLoop)); [| exact Hp].
  apply frames_in_loop.
Qed.

Ltac foreign_to_loop :=
  let c := fresh "c" in
  intros c; destruct c; simpl; intros; try reflexivity; try discriminate.

(** Case analysis on the shape of the run of [E] with [fuel] turns. *)
Ltac by_shape E fuel :=
  let H := fresh "Hshape" in
  pose proof (run_shape E fuel) as H;
  revert H;
  generalize (exit_status E fuel), (trace E fuel);
  let s := fresh "status" in
  let t := fresh "calls" in
  intros s t H;
  destruct H as [Hw | Hw Hg | fs Hw Hg | fs Hw Hg].

Ltac statuses E :=
  unfold shader_calls, vertex_check_calls, link_check_calls;
  destruct (compile_status E (vertexShader E));
  destruct (link_status E (shaderProgram E)).

(** ** The claims *)

(** C7.  In every run, when [glfwCreateWindow] is called the context version
    hints stand at major 3 and minor 3 and the profile hint at the core
    profile: an OpenGL 3.3 core-profile context is what the program asks
    for. *)
Theorem C7_requests_opengl_3_3_core (E : environment) (fuel : nat) :
  requested (trace E fuel) GLFW_CONTEXT_VERSION_MAJOR = Some (int_value 3) /\
  requested (trace E fuel) GLFW_CONTEXT_VERSION_MINOR = Some (int_value 3) /\
  requested (trace E fuel) GLFW_OPENGL_PROFILE =
    Some GLFW_OPENGL_CORE_PROFILE.
Proof.
  by_shape E fuel; repeat split; reflexivity.
Qed.

(** C8.  The two error exits differ in what they release.  When the window
    cannot be created, [main] returns -1 and its last call is the one
    [glfwTerminate] of the run.  When the loader fails, [main] returns -1
    with GLFW initialised and the window created and with no call to
    [glfwTerminate] or [glfwDestroyWindow] anywhere in the run. *)
Theorem C8_error_exits_release_differently (E : environment) (fuel : nat) :
  (window_created E = false ->
   exit_status E fuel = Some (-1) /\
   filter is_release (trace E fuel) = [glfwTerminate] /\
   last (trace E fuel) glfwInit = glfwTerminate) /\
  (window_created E = true -> glad_loaded E = false ->
   exit_status E fuel = Some (-1) /\
   filter is_release (trace E fuel) = [] /\
   In glfwInit (trace E fuel) /\
   filter is_create_window (trace E fuel) =
     [glfwCreateWindow SCR_WIDTH SCR_HEIGHT "OpenGL - Creating a window"]).
Proof.
  by_shape E fuel; split; intros; try congruence.
  - repeat split; reflexivity.
  - repeat split; try reflexivity. simpl. auto.
Qed.

Lemma C8_error_exits_release_differently_witness :
  (exit_status no_window 0 = Some (-1) /\
   filter is_release (trace no_window 0) = [glfwTerminate] /\
   last (trace no_window 0) glfwInit = glfwTerminate) /\
  (exit_status no_loader 0 = Some (-1) /\
   filter is_release (trace no_loader 0) = [] /\
   In glfwInit (trace no_loader 0) /\
   filter is_create_window (trace no_loader 0) =
     [glfwCreateWindow SCR_WIDTH SCR_HEIGHT "OpenGL - Creating a window"]).
Proof.
  split.
  - apply (proj1 (C8_error_exits_release_differently no_window 0)).
    reflexivity.
  - apply (proj2 (C8_error_exits_release_differently no_loader 0));
      reflexivity.
Defined.

(** X14.  No error that the program checks for is recovered from or
    retried.  Window creation failure: the log is the five start-up calls,
    the message and [glfwTerminate], and
    [main] returns -1.  Loader failure: the log ends with the one loader
    call and the message, and [main] returns -1.  Otherwise, whatever the
    compile and link statuses are: a failed vertex compile status and a
    failed link status are each written to standard output, each shader is
    compiled once and the program linked once, the run goes on through the
    last call before the loop, and [main] does not return -1. *)
Theorem X14_checked_errors_logged_never_retried
        (E : environment) (fuel : nat) :
  (window_created E = false ->
   exit_status E fuel = Some (-1) /\
   trace E fuel =
     [ glfwInit;
       glfwWindowHint GLFW_CONTEXT_VERSION_MAJOR (int_value 3);
       glfwWindowHint GLFW_CONTEXT_VERSION_MINOR (int_value 3);
       glfwWindowHint GLFW_OPENGL_PROFILE GLFW_OPENGL_CORE_PROFILE;
       glfwCreateWindow SCR_WIDTH SCR_HEIGHT "OpenGL - Creating a window";
       cout Failed_to_create_GLFW_Window;
       glfwTerminate ]) /\
  (window_created E = true -> glad_loaded E = false ->
   exit_status E fuel = Some (-1) /\
   trace E fuel =
     [ glfwInit;
       glfwWindowHint GLFW_CONTEXT_VERSION_MAJOR (int_value 3);
       glfwWindowHint GLFW_CONTEXT_VERSION_MINOR (int_value 3);
       glfwWindowHint GLFW_OPENGL_PROFILE GLFW_OPENGL_CORE_PROFILE;
       glfwCreateWindow SCR_WIDTH SCR_HEIGHT "OpenGL - Creating a window";
       glfwMakeContextCurrent;
       glfwSetFramebufferSizeCallback;
       gladLoadGLLoader;
       cout Failed_to_initialize_GLAD ]) /\
  (window_created E = true -> glad_loaded E = true ->
   exit_status E fuel <> Some (-1) /\
   output (trace E fuel) =
     (if compile_status E (vertexShader E) then []
      else [VERTEX_COMPILATION_FAILED
              (substring 0 511 (shader_info_log E (vertexShader E)))]) ++
     (if link_status E (shaderProgram E) then []
      else [PROGRAM_LINKING_FAILED
              (substring 0 511 (program_info_log E (shaderProgram E)))]) /\
   filter is_compile (trace E fuel) =
     [glCompileShader (vertexShader E); glCompileShader (fragmentShader E)] /\
   filter is_link (trace E fuel) = [glLinkProgram (shaderProgram E)] /\
   filter is_create_window (trace E fuel) =
     [glfwCreateWindow SCR_WIDTH SCR_HEIGHT "OpenGL - Creating a window"] /\
   filter is_loader (trace E fuel) = [gladLoadGLLoader] /\
   In (glPolygonMode GL_FRONT_AND_BACK GL_LINE) (trace E fuel)).
Proof.
  by_shape E fuel; repeat apply conj; intros; try congruence;
    try (split; reflexivity).
  all: repeat apply conj; try discriminate.
  all: rewrite ?output_app, ?filter_app, ?in_app_iff.
  all: rewrite ?(output_in_loop _ (frames_in_loop E fs)).
  all: rewrite ?(filter_frames E is_compile), ?(filter_frames E is_link),
         ?(filter_frames E is_create_window), ?(filter_frames E is_loader)
         by foreign_to_loop.
  all: try (statuses E; reflexivity).
  all: right; right; right; left; simpl; tauto.
Qed.

Lemma X14_checked_errors_logged_never_retried_witness :
  (exit_status no_window 0 = Some (-1) /\
   List.length (trace no_window 0) = 7%nat) /\
  (exit_status no_loader 0 = Some (-1) /\
   List.length (trace no_loader 0) = 9%nat) /\
  (List.length (output (trace vertex_rejected 4)) = 2%nat /\
   List.length (filter is_compile (trace vertex_rejected 4)) = 2%nat).
Proof.
  pose proof (X14_checked_errors_logged_never_retried no_window 0)
    as (Hwindow & _ & _).
  pose proof (X14_checked_errors_logged_never_retried no_loader 0)
    as (_ & Hloader & _).
  pose proof (X14_checked_errors_logged_never_retried vertex_rejected 4)
    as (_ & _ & Hvertex).
  destruct (Hwindow eq_refl) as [Hs1 Ht1].
  destruct (Hloader eq_refl eq_refl) as [Hs2 Ht2].
  destruct (Hvertex eq_refl eq_refl) as (_ & Hout & Hcompile & _).
  rewrite Ht1, Ht2, Hout, Hcompile.
  repeat split; try assumption; reflexivity.
Defined.

(** Whatever the environment, the only [glGetShaderiv] of a run, if the run
    gets that far, asks for the compile status of the vertex shader. *)
Lemma only_vertex_shader_queried (E : environment) (fuel : nat) :
  filter is_shader_query (trace E fuel) = [] \/
  filter is_shader_query (trace E fuel) =
    [glGetShaderiv (vertexShader E) GL_COMPILE_STATUS].
Proof.
  by_shape E fuel; [left; reflexivity | left; reflexivity | right | right].
  all: rewrite !filter_app.
  all: rewrite (filter_frames E is_shader_query) by foreign_to_loop.
  all: statuses E; reflexivity.
Qed.

(** C1, at a driver that rejects the fragment shader.  The fragment shader
    (name 2) is compiled, its compile status is [GL_FALSE], and the run
    goes through to [return 0]; the one compile-status query of the run is
    about the vertex shader (name 1), and the only line on standard output
    is the link failure: no query finds the failed compilation and no
    compilation message is printed. *)
Theorem C1_fragment_compile_failure_unreported :
  compile_status fragment_rejected (fragmentShader fragment_rejected)
    = false /\
  In (glCompileShader (fragmentShader fragment_rejected))
     (trace fragment_rejected 4) /\
  exit_status fragment_rejected 4 = Some 0 /\
  filter is_shader_query (trace fragment_rejected 4) =
    [glGetShaderiv 1 GL_COMPILE_STATUS] /\
  output (trace fragment_rejected 4) =
    [PROGRAM_LINKING_FAILED "Fragment info: shader not compiled"].
Proof.
  repeat split; try reflexivity.
  vm_compute. tauto.
Qed.


Lemma skipn_length_app {A : Type} (a b : list A) :
  skipn (List.length a) (a ++ b) = b.
Proof. induction a as [| x a IH]; simpl; [reflexivity | exact IH]. Qed.

Lemma action_eqb_eq (a b : action) : action_eqb a b = true <-> a = b.
Proof. destruct a, b; simpl; split; congruence. Qed.

Lemma processInput_calls (w : world) :
  calls_of processInput w =
  glfwGetKey GLFW_KEY_ESCAPE ::
  (if action_eqb (keys (win w) GLFW_KEY_ESCAPE) GLFW_PRESS
   then [glfwSetWindowShouldClose true] else []).
Proof.
  unfold calls_of. rewrite processInput_run. cbn [snd].
  destruct (action_eqb (keys (win w) GLFW_KEY_ESCAPE) GLFW_PRESS); simpl.
  - rewrite <- app_assoc. apply skipn_length_app.
  - apply skipn_length_app.
Qed.

(** C9.  From any world, [processInput] asks for the state of the escape
    key and calls [glfwSetWindowShouldClose(window, true)] exactly when that
    state is [GLFW_PRESS]; then the close flag of the window is set and its
    key states are as before, and otherwise the window is as before. *)
Theorem C9_processInput_closes_on_escape (w : world) :
  fst (processInput w) = Value tt /\
  (In (glfwSetWindowShouldClose true) (calls_of processInput w) <->
   keys (win w) GLFW_KEY_ESCAPE = GLFW_PRESS) /\
  (keys (win w) GLFW_KEY_ESCAPE = GLFW_PRESS ->
   should_close (win (snd (processInput w))) = true /\
   keys (win (snd (processInput w))) = keys (win w)) /\
  (keys (win w) GLFW_KEY_ESCAPE <> GLFW_PRESS ->
   win (snd (processInput w)) = win w).
Proof.
  rewrite processInput_calls, processInput_run. cbn [fst snd].
  destruct (action_eqb (keys (win w) GLFW_KEY_ESCAPE) GLFW_PRESS) eqn:Hkey.
  - apply action_eqb_eq in Hkey. repeat split; simpl; auto; congruence.
  - assert (keys (win w) GLFW_KEY_ESCAPE <> GLFW_PRESS) as Hne.
    { intro H. apply action_eqb_eq in H. congruence. }
    repeat split; simpl; auto; try congruence.
    intros [H | []]. discriminate H.
Qed.

Lemma C9_processInput_closes_on_escape_witness :
  (should_close (win (snd (processInput (world_with escape_held)))) = true /\
   keys (win (snd (processInput (world_with escape_held))))
     = keys escape_held) /\
  win (snd (processInput (world_with idle))) = idle.
Proof.
  split.
  - apply (C9_processInput_closes_on_escape (world_with escape_held)).
    reflexivity.
  - apply (C9_processInput_closes_on_escape (world_with idle)).
    discriminate.
Defined.

Lemma frame_draws (E : environment) (f : bool * list (Z * Z)) :
  filter is_draw (frame_calls E f) =
  [glDrawElements GL_TRIANGLES 6 GL_UNSIGNED_INT 0].
Proof.
  destruct f as [escape sizes]. unfold frame_calls.
  rewrite !filter_app, filter_viewports by reflexivity.
  now destruct escape.
Qed.

Lemma frames_draws (E : environment) (fs : list (bool * list (Z * Z))) :
  filter is_draw (flat_map (frame_calls E) fs) =
  repeat (glDrawElements GL_TRIANGLES 6 GL_UNSIGNED_INT 0) (List.length fs).
Proof.
  induction fs as [| f fs IH]; cbn [flat_map List.length repeat].
  - reflexivity.
  - now rewrite filter_app, frame_draws, IH.
Qed.

(** Every draw call of every run is the one of the loop body. *)
Lemma draws_of_run (E : environment) (fuel : nat) :
  exists n : nat,
    filter is_draw (trace E fuel) =
    repeat (glDrawElements GL_TRIANGLES 6 GL_UNSIGNED_INT 0) n.
Proof.
  by_shape E fuel.
  - exists 0%nat. reflexivity.
  - exists 0%nat. reflexivity.
  - exists (List.length fs). rewrite !filter_app, frames_draws.
    statuses E; reflexivity.
  - exists (List.length fs). rewrite !filter_app, frames_draws.
    statuses E; simpl; now rewrite app_nil_r.
Qed.

(** Every buffer write of every run is one of the two uploads. *)
Lemma uploads_of_run (E : environment) (fuel : nat) :
  filter is_buffer_write (trace E fuel) = [] \/
  filter is_buffer_write (trace E fuel) =
    [ glBufferData GL_ARRAY_BUFFER 48 (floats vertices) GL_STATIC_DRAW;
      glBufferData GL_ELEMENT_ARRAY_BUFFER 24 (unsigned_ints indices)
                   GL_STATIC_DRAW ].
Proof.
  by_shape E fuel; [left; reflexivity | left; reflexivity | right | right].
  all: rewrite !filter_app.
  all: rewrite (filter_frames E is_buffer_write) by foreign_to_loop.
  all: statuses E; reflexivity.
Qed.

(** C3.  The vertex array holds 12 floats, the positions of the four corners
    of a quad with three components each, and the index array holds 6
    indices.  Neither depends on the environment, and in every run the
    buffer writes, if the run gets to them, are exactly these two arrays,
    48 and 24 bytes long. *)
Theorem C3_fixed_vertex_and_index_arrays (E : environment) (fuel : nat) :
  List.length vertices = 12%nat /\
  map vertex [0; 1; 2; 3] =
    [ Some (0.5, 0.5, 0.0)%Q; Some (0.5, -0.5, 0.0)%Q;
      Some (-0.5, -0.5, 0.0)%Q; Some (-0.5, 0.5, 0.0)%Q ] /\
  List.length indices = 6%nat /\
  sizeof (floats vertices) = 48 /\
  sizeof (unsigned_ints indices) = 24 /\
  (filter is_buffer_write (trace E fuel) = [] \/
   filter is_buffer_write (trace E fuel) =
     [ glBufferData GL_ARRAY_BUFFER 48 (floats vertices) GL_STATIC_DRAW;
       glBufferData GL_ELEMENT_ARRAY_BUFFER 24 (unsigned_ints indices)
                    GL_STATIC_DRAW ]).
Proof.
  repeat split; try reflexivity. apply uploads_of_run.
Qed.

Lemma vertex_in_range (i : Z) : vertex i <> None <-> 0 <= i <= 3.
Proof.
  split.
  - intro H. destruct (Z_le_gt_dec 0 i) as [Hlo | Hlo].
    + destruct (Z_le_gt_dec i 3) as [Hhi | Hhi]; [lia |].
      exfalso. apply H. unfold vertex.
      destruct (i <? 0); [reflexivity |].
      assert (nth_error vertices (3 * Z.to_nat i) = None) as Hnone.
      { apply nth_error_None. simpl. lia. }
      cbv zeta. now rewrite Hnone.
    + exfalso. apply H. unfold vertex.
      destruct (Z.ltb_spec i 0); [reflexivity | lia].
  - intros Hi.
    assert (i = 0 \/ i = 1 \/ i = 2 \/ i = 3) as [-> | [-> | [-> | ->]]]
      by lia; discriminate.
Qed.

(** C10.  Each of the 6 indices lies between 0 and 3 and fetches a vertex
    of the 4-vertex array; and in every run every draw call is an indexed
    draw from offset 0 whose count is the length of the index array. *)
Theorem C10_indices_in_range (E : environment) (fuel : nat) :
  Forall (fun i => 0 <= i <= 3 /\ vertex i <> None) indices /\
  List.length vertices = (4 * 3)%nat /\
  Forall (fun c => c = glDrawElements GL_TRIANGLES
                         (Z.of_nat (List.length indices)) GL_UNSIGNED_INT 0)
         (filter is_draw (trace E fuel)).
Proof.
  split; [| split; [reflexivity |]].
  - unfold indices. repeat constructor; try lia; discriminate.
  - destruct (draws_of_run E fuel) as [n Hn]. rewrite Hn.
    apply Forall_forall. intros c Hc. now apply repeat_spec in Hc.
Qed.

(** *** Cutting a run at the tests of its loop *)

Lemma split_turns_app (a b : list call) :
  test_free a = true ->
  split_turns (a ++ b) = (a ++ fst (split_turns b), snd (split_turns b)).
Proof.
  unfold test_free. induction a as [| c a IH]; simpl; intro H.
  - now destruct (split_turns b).
  - apply andb_prop in H as [Hc Ha]. rewrite (IH Ha).
    apply negb_true_iff in Hc. now rewrite Hc.
Qed.

Lemma split_turns_test (a b : list call) :
  test_free a = true ->
  split_turns (glfwWindowShouldClose :: a ++ b) =
  ([], (glfwWindowShouldClose :: a ++ fst (split_turns b))
         :: snd (split_turns b)).
Proof.
  intro Ha. cbn [split_turns]. now rewrite (split_turns_app a b Ha).
Qed.

Lemma frame_calls_test (E : environment) (f : bool * list (Z * Z)) :
  exists body : list call,
    frame_calls E f = glfwWindowShouldClose :: body /\
    test_free body = true.
Proof.
  destruct f as [escape sizes].
  exists (glfwGetKey GLFW_KEY_ESCAPE ::
          (if escape then [glfwSetWindowShouldClose true] else []) ++
          [ glClearColor 0.2 0.3 0.3 1.0;
            glClear GL_COLOR_BUFFER_BIT;
            glUseProgram (shaderProgram E);
            glBindVertexArray (VAO E);
            glDrawElements GL_TRIANGLES 6 GL_UNSIGNED_INT 0;
            glfwSwapBuffers;
            glfwPollEvents ] ++
          map (fun s => glViewport 0 0 (fst s) (snd s)) sizes).
  split; [reflexivity |].
  unfold test_free. cbn [forallb is_loop_test negb andb].
  rewrite !forallb_app.
  assert (forallb (fun c => negb (is_loop_test c))
            (map (fun s => glViewport 0 0 (fst s) (snd s)) sizes) = true)
    as Hv by (induction sizes; simpl; auto).
  rewrite Hv. now destruct escape.
Qed.

Lemma split_turns_frames (E : environment)
      (fs : list (bool * list (Z * Z))) (rest : list call) :
  fst (split_turns rest) = [] ->
  split_turns (flat_map (frame_calls E) fs ++ rest) =
  ([], map (frame_calls E) fs ++ snd (split_turns rest)).
Proof.
  intro Hrest. induction fs as [| f fs IH]; cbn [flat_map map app].
  - rewrite <- Hrest. now destruct (split_turns rest).
  - destruct (frame_calls_test E f) as (body & Hf & Hbody).
    rewrite <- app_assoc, Hf. cbn [app].
    rewrite (split_turns_test _ _ Hbody), IH. cbn [fst snd].
    now rewrite app_nil_r.
Qed.

Lemma setup_test_free (E : environment) :
  test_free (window_calls ++ loader_calls ++ shader_calls E ++
             buffer_calls E) = true.
Proof. statuses E; reflexivity. Qed.

(** A run that got past the loader, cut at the tests of its loop: the setup,
    then one turn per frame and, once the loop is left, the turn of the
    last test with the cleanup. *)
Lemma split_turns_run (E : environment) (fuel : nat) :
  window_created E = true -> glad_loaded E = true ->
  exists fs : list (bool * list (Z * Z)),
    before_loop (trace E fuel) =
      window_calls ++ loader_calls ++ shader_calls E ++ buffer_calls E /\
    ((exit_status E fuel = None /\
      turns (trace E fuel) = map (frame_calls E) fs) \/
     (exit_status E fuel = Some 0 /\
      turns (trace E fuel) =
        map (frame_calls E) fs ++
        [glfwWindowShouldClose :: cleanup_calls E])).
Proof.
  intros Hw' Hg'. unfold before_loop, turns.
  by_shape E fuel; try congruence; exists fs.
  - replace (window_calls ++ loader_calls ++ shader_calls E ++
             buffer_calls E ++ flat_map (frame_calls E) fs)
      with ((window_calls ++ loader_calls ++ shader_calls E ++
             buffer_calls E) ++ flat_map (frame_calls E) fs ++ [])
      by (rewrite <- !app_assoc, app_nil_r; reflexivity).
    rewrite (split_turns_app _ _ (setup_test_free E)).
    rewrite (split_turns_frames E fs []) by reflexivity.
    cbn [fst snd split_turns]. rewrite !app_nil_r. auto.
  - replace (window_calls ++ loader_calls ++ shader_calls E ++
             buffer_calls E ++ flat_map (frame_calls E) fs ++
             [glfwWindowShouldClose] ++ cleanup_calls E)
      with ((window_calls ++ loader_calls ++ shader_calls E ++
             buffer_calls E) ++ flat_map (frame_calls E) fs ++
            [glfwWindowShouldClose] ++ cleanup_calls E)
      by (rewrite <- !app_assoc; reflexivity).
    rewrite (split_turns_app _ _ (setup_test_free E)).
    rewrite (split_turns_frames E fs) by reflexivity.
    cbn [fst snd]. rewrite !app_nil_r. auto.
Qed.

Lemma split_turns_joins (l : list call) :
  l = before_loop l ++ from_loop l.
Proof.
  unfold before_loop, from_loop, turns.
  induction l as [| c l IH]; cbn [split_turns].
  - reflexivity.
  - destruct (split_turns l) as [first rest]. cbn [fst snd] in IH.
    destruct (is_loop_test c); cbn [fst snd List.concat app];
      now rewrite IH at 1.
Qed.

Lemma concat_filter_nil (p : call -> bool) (ls : list (list call)) :
  Forall (fun l => filter p l = []) ls -> filter p (List.concat ls) = [].
Proof.
  induction 1 as [| l ls Hl _ IH]; simpl.
  - reflexivity.
  - now rewrite filter_app, Hl, IH.
Qed.

Lemma frame_filter_nil (E : environment) (p : call -> bool)
      (f : bool * list (Z * Z)) :
  (forall c, in_phase RenderLoop c = true -> p c = false) ->
  filter p (frame_calls E f) = [].
Proof.
  intro Hp. apply (filter_outside p (in_phase RenderLoop)); [| exact Hp].
  apply frame_in_loop.
Qed.

(** C2.  In a run that gets past the loader, [glPolygonMode] is called once,
    before the first test of the loop, with [GL_FRONT_AND_BACK] and
    [GL_LINE], and no draw call precedes the loop.  Cut at its tests, the
    rest of the run is a list of turns in each of which the draw calls are
    the single [glDrawElements(GL_TRIANGLES, 6, GL_UNSIGNED_INT, 0)], two
    triangles, followed, once [main] has returned, by the turn of the last
    test, which draws nothing. *)
Theorem C2_two_wireframe_triangles_per_turn (E : environment) (fuel : nat) :
  window_created E = true -> glad_loaded E = true ->
  filter is_polygon_mode (before_loop (trace E fuel)) =
    [glPolygonMode GL_FRONT_AND_BACK GL_LINE] /\
  filter is_polygon_mode (from_loop (trace E fuel)) = [] /\
  filter is_draw (before_loop (trace E fuel)) = [] /\
  triangles (glDrawElements GL_TRIANGLES 6 GL_UNSIGNED_INT 0) = 2 /\
  exists (frames last_test : list (list call)),
    turns (trace E fuel) = frames ++ last_test /\
    Forall (fun t => filter is_draw t =
                       [glDrawElements GL_TRIANGLES 6 GL_UNSIGNED_INT 0])
           frames /\
    ((exit_status E fuel = None /\ last_test = []) \/
     (exit_status E fuel = Some 0 /\
      exists t, last_test = [t] /\ filter is_draw t = [])).
Proof.
  intros Hw Hg.
  destruct (split_turns_run E fuel Hw Hg) as (fs & Hsetup & Hturns).
  unfold from_loop. rewrite Hsetup.
  assert (Forall (fun t => filter is_polygon_mode t = [])
            (map (frame_calls E) fs)) as Hquiet.
  { apply Forall_forall. intros t Ht. apply in_map_iff in Ht as (f & <- & _).
    apply frame_filter_nil. foreign_to_loop. }
  assert (Forall (fun t => filter is_draw t =
                             [glDrawElements GL_TRIANGLES 6 GL_UNSIGNED_INT 0])
            (map (frame_calls E) fs)) as Hdraw.
  { apply Forall_forall. intros t Ht. apply in_map_iff in Ht as (f & <- & _).
    apply frame_draws. }
  repeat apply conj.
  - statuses E; reflexivity.
  - destruct Hturns as [[_ ->] | [_ ->]].
    + now apply concat_filter_nil.
    + apply concat_filter_nil, Forall_app. split; [exact Hquiet |].
      now repeat constructor.
  - statuses E; reflexivity.
  - reflexivity.
  - destruct Hturns as [[Hs ->] | [Hs ->]].
    + exists (map (frame_calls E) fs), []. rewrite app_nil_r. auto.
    + exists (map (frame_calls E) fs),
        [glfwWindowShouldClose :: cleanup_calls E].
      repeat split; [exact Hdraw |]. right. split; [exact Hs |].
      eexists. split; reflexivity.
Qed.

Lemma C2_two_wireframe_triangles_per_turn_witness :
  filter is_polygon_mode (before_loop (trace healthy 4)) =
    [glPolygonMode GL_FRONT_AND_BACK GL_LINE] /\
  List.length (turns (trace healthy 4)) = 4%nat /\
  List.length (filter is_draw (trace healthy 4)) = 3%nat.
Proof.
  destruct (C2_two_wireframe_triangles_per_turn healthy 4 eq_refl eq_refl)
    as (Hmode & _).
  split; [exact Hmode | split; reflexivity].
Defined.

(** C4.  In a run that gets past the loader the buffer writes before the
    first test of the loop are one [glBufferData] to [GL_ARRAY_BUFFER] with
    the vertex array followed by one to [GL_ELEMENT_ARRAY_BUFFER] with the
    index array, and from that test to the end of the run there is no
    buffer write at all. *)
Theorem C4_uploaded_once_before_the_loop (E : environment) (fuel : nat) :
  window_created E = true -> glad_loaded E = true ->
  filter is_buffer_write (before_loop (trace E fuel)) =
    [ glBufferData GL_ARRAY_BUFFER (sizeof (floats vertices))
                   (floats vertices) GL_STATIC_DRAW;
      glBufferData GL_ELEMENT_ARRAY_BUFFER (sizeof (unsigned_ints indices))
                   (unsigned_ints indices) GL_STATIC_DRAW ] /\
  filter is_buffer_write (from_loop (trace E fuel)) = [] /\
  trace E fuel = before_loop (trace E fuel) ++ from_loop (trace E fuel).
Proof.
  intros Hw Hg.
  destruct (split_turns_run E fuel Hw Hg) as (fs & Hsetup & Hturns).
  assert (Forall (fun t => filter is_buffer_write t = [])
            (map (frame_calls E) fs)) as Hquiet.
  { apply Forall_forall. intros t Ht. apply in_map_iff in Ht as (f & <- & _).
    apply frame_filter_nil. foreign_to_loop. }
  repeat apply conj.
  - rewrite Hsetup. statuses E; reflexivity.
  - unfold from_loop. destruct Hturns as [[_ ->] | [_ ->]].
    + now apply concat_filter_nil.
    + apply concat_filter_nil, Forall_app. split; [exact Hquiet |].
      now repeat constructor.
  - apply split_turns_joins.
Qed.

Lemma C4_uploaded_once_before_the_loop_witness :
  List.length (filter is_buffer_write (before_loop (trace healthy 4)))
    = 2%nat /\
  filter is_buffer_write (from_loop (trace healthy 4)) = [] /\
  List.length (from_loop (trace healthy 4)) = 34%nat.
Proof.
  destruct (C4_uploaded_once_before_the_loop healthy 4 eq_refl eq_refl)
    as (Hbefore & Hfrom & _).
  rewrite Hbefore. split; [reflexivity | split; [exact Hfrom | reflexivity]].
Defined.

(** A window that is already closing when the loop is reached: one test,
    the cleanup, and [return 0], on any positive bound. *)
Lemma closing_window_returns_zero (E : environment) (fuel : nat) :
  window_created E = true -> glad_loaded E = true ->
  should_close (window0 E) = true ->
  exit_status E (S fuel) = Some 0.
Proof.
  intros Hw Hg Hclose. unfold exit_status.
  rewrite (main_ready E (S fuel) Hw Hg).
  rewrite (bind_value _ _ _ _ _ (render_loop_closing E fuel (ready E) Hclose)).
  reflexivity.
Qed.

(** C5.  Every run is five consecutive stretches of calls, some of them
    possibly empty: initialization, then shader compilation and linking,
    then buffer creation and upload, then the render loop, then cleanup;
    each stretch holds calls of its own phase only.  When [main] returns 0
    all five are there: GLFW initialised and the loader called, the program
    linked, both arrays uploaded, the loop tested, and the cleanup is the
    deletion of the vertex array and of the two buffers followed by
    [glfwTerminate]. *)
Theorem C5_phases_in_order (E : environment) (fuel : nat) :
  exists l1 l2 l3 l4 l5 : list call,
    trace E fuel = l1 ++ l2 ++ l3 ++ l4 ++ l5 /\
    forallb (in_phase Initialization) l1 = true /\
    forallb (in_phase Shaders) l2 = true /\
    forallb (in_phase Buffers) l3 = true /\
    forallb (in_phase RenderLoop) l4 = true /\
    forallb (in_phase Cleanup) l5 = true /\
    (exit_status E fuel = Some 0 ->
     In glfwInit l1 /\ In gladLoadGLLoader l1 /\
     In (glLinkProgram (shaderProgram E)) l2 /\
     filter is_buffer_write l3 =
       [ glBufferData GL_ARRAY_BUFFER 48 (floats vertices) GL_STATIC_DRAW;
         glBufferData GL_ELEMENT_ARRAY_BUFFER 24 (unsigned_ints indices)
                      GL_STATIC_DRAW ] /\
     In glfwWindowShouldClose l4 /\
     l5 = [ glDeleteVertexArrays 1 (VAO E);
            glDeleteBuffers 1 (VBO E);
            glDeleteBuffers 1 (EBO E);
            glfwTerminate ]).
Proof.
  by_shape E fuel.
  - exists (window_calls ++ [cout Failed_to_create_GLFW_Window]),
      [], [], [], [glfwTerminate].
    repeat split; try reflexivity; discriminate.
  - exists (window_calls ++ loader_calls ++ [cout Failed_to_initialize_GLAD]),
      [], [], [], [].
    repeat split; try reflexivity; discriminate.
  - exists (window_calls ++ loader_calls), (shader_calls E), (buffer_calls E),
      (flat_map (frame_calls E) fs), [].
    repeat apply conj; try reflexivity.
    + now rewrite <- !app_assoc, app_nil_r.
    + statuses E; reflexivity.
    + apply frames_in_loop.
    + discriminate.
  - exists (window_calls ++ loader_calls), (shader_calls E), (buffer_calls E),
      (flat_map (frame_calls E) fs ++ [glfwWindowShouldClose]),
      (cleanup_calls E).
    repeat apply conj; try reflexivity.
    + now rewrite <- !app_assoc.
    + statuses E; reflexivity.
    + now rewrite forallb_app, frames_in_loop.
    + intros _. repeat apply conj; try reflexivity.
      * simpl. auto.
      * simpl. auto 10.
      * statuses E; simpl; auto 20.
      * apply in_or_app. right. simpl. auto.
Qed.

Lemma C5_phases_in_order_witness :
  exists l1 l2 l3 l4 l5 : list call,
    trace healthy 4 = l1 ++ l2 ++ l3 ++ l4 ++ l5 /\
    forallb (in_phase Initialization) l1 = true /\
    forallb (in_phase Shaders) l2 = true /\
    forallb (in_phase Buffers) l3 = true /\
    forallb (in_phase RenderLoop) l4 = true /\
    l5 = [ glDeleteVertexArrays 1 1; glDeleteBuffers 1 1;
           glDeleteBuffers 1 2; glfwTerminate ].
Proof.
  destruct (C5_phases_in_order healthy 4)
    as (l1 & l2 & l3 & l4 & l5 & Ht & H1 & H2 & H3 & H4 & _ & Hdone).
  exists l1, l2, l3, l4, l5.
  repeat split; try assumption.
  apply (Hdone eq_refl).
Defined.

(** ** The loop, turn by turn *)

Lemma deliver_all_exact (evs : list event) (w : world) :
  deliver_all evs w =
  (Value tt,
   {| log := log w ++
             (if resize_callback w
              then map (fun s => glViewport 0 0 (fst s) (snd s)) (resizes evs)
              else []);
      win := poll_window evs (win w);
      resize_callback := resize_callback w;
      generated := generated w;
      polled := polled w |}).
Proof.
  revert w; induction evs as [| ev evs IH]; intro w.
  - destruct w as [l wn cb g p]. simpl.
    destruct cb; now rewrite app_nil_r.
  - cbn [deliver_all]. destruct ev as [k a | | width height].
    + unfold bind. cbn [deliver]. rewrite IH. reflexivity.
    + unfold bind. cbn [deliver]. rewrite IH. reflexivity.
    + unfold bind. cbn [deliver].
      destruct (resize_callback w) eqn:Hcb.
      * unfold framebuffer_size_callback, issue. rewrite IH.
        cbn [record log win resize_callback generated polled resizes
             poll_window deliver_window map fst snd].
        rewrite Hcb, <- app_assoc. reflexivity.
      * rewrite IH, Hcb. reflexivity.
Qed.

Lemma after_turn_exact (E : environment) (w : world) :
  after_turn E w =
  {| log := log w ++
            frame_calls E
              (escape_pressed (win w),
               if resize_callback w then resizes (pending E (polled w))
               else []);
     win := poll_window (pending E (polled w))
              (if escape_pressed (win w)
               then set_should_close true (win w) else win w);
     resize_callback := resize_callback w;
     generated := generated w;
     polled := S (polled w) |}.
Proof.
  unfold after_turn, call_glfwPollEvents, escape_pressed.
  rewrite processInput_run, deliver_all_exact.
  destruct w as [l wn cb g p].
  cbn [record log win resize_callback generated polled snd].
  unfold frame_calls. cbn [fst snd].
  destruct (action_eqb (keys wn GLFW_KEY_ESCAPE) GLFW_PRESS); destruct cb;
    cbn [with_window record log win resize_callback generated polled map];
    rewrite <- ?app_assoc; reflexivity.
Qed.

Lemma world_at_S (E : environment) (w : world) (n : nat) :
  world_at E w (S n) = after_turn E (world_at E w n).
Proof.
  revert w; induction n as [| n IH]; intro w.
  - reflexivity.
  - change (world_at E w (S (S n))) with (world_at E (after_turn E w) (S n)).
    now rewrite IH.
Qed.

Lemma world_at_polled (E : environment) (w : world) (n : nat) :
  polled (world_at E w n) = (polled w + n)%nat.
Proof.
  induction n as [| n IH].
  - simpl. lia.
  - rewrite world_at_S, after_turn_exact. cbn [polled]. lia.
Qed.

Lemma world_at_callback (E : environment) (w : world) (n : nat) :
  resize_callback (world_at E w n) = resize_callback w.
Proof.
  induction n as [| n IH].
  - reflexivity.
  - now rewrite world_at_S, after_turn_exact.
Qed.

(** The loop on a bound, in closed form: either no test within the bound
    finds the window closing and the bound cuts the loop after that many
    turns, or the first test that does ends it. *)
Lemma render_loop_result (E : environment) (fuel : nat) (w : world) :
  (render_loop E (shaderProgram E) (VAO E) fuel w
     = (OutOfFuel, world_at E w fuel) /\
   forall k, (k < fuel)%nat -> should_close (win (world_at E w k)) = false)
  \/
  (exists n : nat,
     (n < fuel)%nat /\
     (forall k, (k < n)%nat -> should_close (win (world_at E w k)) = false) /\
     should_close (win (world_at E w n)) = true /\
     render_loop E (shaderProgram E) (VAO E) fuel w
       = (Value tt, record glfwWindowShouldClose (world_at E w n))).
Proof.
  revert w; induction fuel as [| fuel IH]; intro w.
  - left. split; [reflexivity | intros k Hk; lia].
  - destruct (should_close (win w)) eqn:Hclose.
    + right. exists 0%nat. repeat split.
      * lia.
      * intros k Hk. lia.
      * exact Hclose.
      * now apply render_loop_closing.
    + rewrite (render_loop_next E fuel w Hclose).
      destruct (IH (after_turn E w)) as [[Hrun Hopen] | (n & Hn & Hopen & Hn' & Hrun)].
      * left. split; [exact Hrun |].
        intros [| k] Hk; [exact Hclose | apply Hopen; lia].
      * right. exists (S n). repeat split.
        -- lia.
        -- intros [| k] Hk; [exact Hclose | apply Hopen; lia].
        -- exact Hn'.
        -- exact Hrun.
Qed.

(** The same for a whole run that gets past the loader. *)
Lemma run_result (E : environment) (fuel : nat) :
  window_created E = true -> glad_loaded E = true ->
  (exit_status E fuel = None /\
   trace E fuel = log (world_at E (ready E) fuel) /\
   forall k, (k < fuel)%nat ->
             should_close (win (world_at E (ready E) k)) = false)
  \/
  (exists n : nat,
     (n < fuel)%nat /\
     (forall k, (k < n)%nat ->
                should_close (win (world_at E (ready E) k)) = false) /\
     should_close (win (world_at E (ready E) n)) = true /\
     exit_status E fuel = Some 0 /\
     trace E fuel =
       log (world_at E (ready E) n) ++
       [glfwWindowShouldClose] ++ cleanup_calls E).
Proof.
  intros Hw Hg. unfold exit_status, trace.
  rewrite (main_ready E fuel Hw Hg).
  destruct (render_loop_result E fuel (ready E))
    as [[Hrun Hopen] | (n & Hn & Hopen & Hn' & Hrun)].
  - left. rewrite (bind_starved _ _ _ _ Hrun). auto.
  - right. exists n. rewrite (bind_value _ _ _ _ _ Hrun), !bind_issue.
    unfold return_. cbn [fst snd]. rewrite !log_record, <- !app_assoc.
    auto.
Qed.

(** A run whose first closing test is number [n], on a bound that reaches
    that test. *)
Lemma run_closed_at (E : environment) (n fuel : nat) :
  window_created E = true -> glad_loaded E = true ->
  (forall k, (k < n)%nat ->
             should_close (win (world_at E (ready E) k)) = false) ->
  should_close (win (world_at E (ready E) n)) = true ->
  (n < fuel)%nat ->
  exit_status E fuel = Some 0 /\
  trace E fuel =
    log (world_at E (ready E) n) ++
    [glfwWindowShouldClose] ++ cleanup_calls E.
Proof.
  intros Hw Hg Hopen Hn Hfuel.
  destruct (run_result E fuel Hw Hg)
    as [(_ & _ & Hopen') | (m & Hm & Hopen' & Hm' & Hs & Ht)].
  - rewrite (Hopen' n Hfuel) in Hn. discriminate Hn.
  - assert (m = n) as ->.
    { destruct (Nat.lt_trichotomy m n) as [Hlt | [Heq | Hgt]].
      - rewrite (Hopen m Hlt) in Hm'. discriminate Hm'.
      - exact Heq.
      - rewrite (Hopen' n Hgt) in Hn. discriminate Hn. }
    auto.
Qed.

(** *** What the turns add to the log *)

Lemma ready_draws (E : environment) : filter is_draw (log (ready E)) = [].
Proof. cbn [ready log]. rewrite !filter_app. statuses E; reflexivity. Qed.

Lemma world_at_draws (E : environment) (w : world) (n : nat) :
  filter is_draw (log (world_at E w n)) =
  filter is_draw (log w) ++
  repeat (glDrawElements GL_TRIANGLES 6 GL_UNSIGNED_INT 0) n.
Proof.
  revert w; induction n as [| n IH]; intro w.
  - simpl. now rewrite app_nil_r.
  - cbn [world_at repeat]. rewrite IH, after_turn_exact. cbn [log].
    now rewrite filter_app, frame_draws, <- app_assoc.
Qed.

(** *** What the events do to the window *)

Lemma poll_window_stays_closing (evs : list event) (w : window) :
  should_close w = true -> should_close (poll_window evs w) = true.
Proof.
  revert w; induction evs as [| ev evs IH]; intros w H; [exact H |].
  cbn [poll_window]. apply IH. now destruct ev.
Qed.

Lemma poll_window_close_request (evs : list event) (w : window) :
  In CloseRequested evs -> should_close (poll_window evs w) = true.
Proof.
  revert w; induction evs as [| ev evs IH]; intros w H; [destruct H |].
  cbn [poll_window]. destruct H as [-> | H].
  - now apply poll_window_stays_closing.
  - now apply IH.
Qed.

Lemma poll_window_no_close_request (evs : list event) (w : window) :
  existsb is_close_request evs = false ->
  should_close (poll_window evs w) = should_close w.
Proof.
  revert w; induction evs as [| ev evs IH]; intros w H; [reflexivity |].
  cbn [poll_window existsb] in *. apply orb_false_iff in H as [Hev Hevs].
  rewrite (IH _ Hevs). now destruct ev.
Qed.

Lemma poll_window_escape (evs : list event) (w : window) :
  keys (poll_window evs w) GLFW_KEY_ESCAPE =
  match escape_after evs with
  | Some a => a
  | None => keys w GLFW_KEY_ESCAPE
  end.
Proof.
  revert w; induction evs as [| ev evs IH]; intro w; [reflexivity |].
  cbn [poll_window escape_after]. rewrite IH.
  destruct (escape_after evs); [reflexivity |].
  destruct ev as [[| code] a | |]; reflexivity.
Qed.

Lemma poll_window_quiet (evs : list event) (w : window) :
  forallb is_quiet evs = true ->
  should_close w = false -> escape_pressed w = false ->
  should_close (poll_window evs w) = false /\
  escape_pressed (poll_window evs w) = false.
Proof.
  revert w; induction evs as [| ev evs IH]; intros w H Hc He; [auto |].
  cbn [poll_window forallb] in *. apply andb_prop in H as [Hev Hevs].
  apply IH; [exact Hevs | |].
  - destruct ev; [exact Hc | discriminate Hev | exact Hc].
  - destruct ev as [[| code] a | |]; try exact He.
    destruct a; [reflexivity | discriminate Hev | reflexivity].
Qed.

Lemma world_at_win_S (E : environment) (w : world) (n : nat) :
  win (world_at E w (S n)) =
  poll_window (pending E (polled w + n))
    (if escape_pressed (win (world_at E w n))
     then set_should_close true (win (world_at E w n))
     else win (world_at E w n)).
Proof.
  rewrite world_at_S, after_turn_exact. cbn [win].
  now rewrite world_at_polled.
Qed.

(** In a quiet stretch the window is neither closing nor is escape seen
    pressed. *)
Lemma world_at_quiet (E : environment) (w : world) (n : nat) :
  should_close (win w) = false -> escape_pressed (win w) = false ->
  (forall k, (k < n)%nat ->
             forallb is_quiet (pending E (polled w + k)) = true) ->
  should_close (win (world_at E w n)) = false /\
  escape_pressed (win (world_at E w n)) = false.
Proof.
  intros Hc He. induction n as [| n IH]; intro Hq; [auto |].
  destruct IH as [Hc' He']; [intros k Hk; apply Hq; lia |].
  rewrite world_at_win_S, He'.
  apply poll_window_quiet; [apply Hq; lia | exact Hc' | exact He'].
Qed.

Lemma not_pressed (w : window) :
  keys w GLFW_KEY_ESCAPE <> GLFW_PRESS -> escape_pressed w = false.
Proof.
  intro H. unfold escape_pressed.
  destruct (action_eqb (keys w GLFW_KEY_ESCAPE) GLFW_PRESS) eqn:Ha;
    [| reflexivity].
  apply action_eqb_eq in Ha. contradiction.
Qed.

Lemma ready_quiet (E : environment) (n : nat) :
  should_close (window0 E) = false ->
  keys (window0 E) GLFW_KEY_ESCAPE <> GLFW_PRESS ->
  (forall k, (k < n)%nat -> forallb is_quiet (pending E k) = true) ->
  should_close (win (world_at E (ready E) n)) = false /\
  escape_pressed (win (world_at E (ready E) n)) = false.
Proof.
  intros Hc He Hq. apply world_at_quiet.
  - exact Hc.
  - now apply not_pressed.
  - intros k Hk. now apply Hq.
Qed.

Lemma closing_after_request (E : environment) (k : nat) :
  In CloseRequested (pending E k) ->
  should_close (win (world_at E (ready E) (S k))) = true.
Proof.
  intro H. rewrite world_at_win_S. now apply poll_window_close_request.
Qed.

Lemma closing_after_escape (E : environment) (k : nat) :
  escape_after (pending E k) = Some GLFW_PRESS ->
  should_close (win (world_at E (ready E) (S (S k)))) = true.
Proof.
  intro H.
  assert (escape_pressed (win (world_at E (ready E) (S k))) = true) as Hp.
  { unfold escape_pressed.
    rewrite world_at_win_S, poll_window_escape. cbn [polled ready Nat.add].
    now rewrite H. }
  rewrite world_at_win_S, Hp. now apply poll_window_stays_closing.
Qed.

Lemma finished_draws (E : environment) (n fuel : nat) :
  trace E fuel =
    log (world_at E (ready E) n) ++
    [glfwWindowShouldClose] ++ cleanup_calls E ->
  filter is_draw (trace E fuel) =
  repeat (glDrawElements GL_TRIANGLES 6 GL_UNSIGNED_INT 0) n.
Proof.
  intros ->. rewrite !filter_app, world_at_draws, ready_draws.
  simpl. now rewrite app_nil_r.
Qed.

(** X5.  A close request ends the run.  If the poll of turn [k] (counting
    from 0) delivers a close request, then on any bound of at least [k + 2]
    turns [main] has returned 0: the loop is left at the latest at the test
    that follows that poll. *)
Theorem X5_close_request_ends_the_run (E : environment) (k fuel : nat) :
  window_created E = true -> glad_loaded E = true ->
  In CloseRequested (pending E k) ->
  (k + 2 <= fuel)%nat ->
  exit_status E fuel = Some 0.
Proof.
  intros Hw Hg Hreq Hfuel.
  pose proof (closing_after_request E k Hreq) as Hclosing.
  destruct (run_result E fuel Hw Hg)
    as [(_ & _ & Hopen) | (n & _ & _ & _ & Hs & _)]; [| exact Hs].
  rewrite Hopen in Hclosing by lia. discriminate Hclosing.
Qed.

Lemma X5_close_request_ends_the_run_witness :
  exit_status closed_by_user 4 = Some 0.
Proof.
  apply (X5_close_request_ends_the_run closed_by_user 2 4).
  - reflexivity.
  - reflexivity.
  - simpl. auto.
  - apply Nat.le_refl.
Defined.

(** X6.  Escape ends the run.  If escape is down after the poll of turn
    [k], that is, the last event about escape that the poll delivers is a
    press, then on any bound of at least [k + 3] turns [main] has returned
    0: [processInput] of the next turn asks for the window to close and the
    test after it leaves the loop. *)
Theorem X6_escape_ends_the_run (E : environment) (k fuel : nat) :
  window_created E = true -> glad_loaded E = true ->
  escape_after (pending E k) = Some GLFW_PRESS ->
  (k + 3 <= fuel)%nat ->
  exit_status E fuel = Some 0.
Proof.
  intros Hw Hg Hesc Hfuel.
  pose proof (closing_after_escape E k Hesc) as Hclosing.
  destruct (run_result E fuel Hw Hg)
    as [(_ & _ & Hopen) | (n & _ & _ & _ & Hs & _)]; [| exact Hs].
  rewrite Hopen in Hclosing by lia. discriminate Hclosing.
Qed.

Lemma X6_escape_ends_the_run_witness :
  exit_status escape_tapped 4 = Some 0.
Proof.
  apply (X6_escape_ends_the_run escape_tapped 1 4).
  - reflexivity.
  - reflexivity.
  - reflexivity.
  - apply Nat.le_refl.
Defined.

(** X7.  Nothing else ends the loop.  If the window is handed out not
    closing and with escape not pressed, and none of the first [fuel] polls
    delivers a close request or a press of escape, then after [fuel] turns
    [main] has not returned and has drawn exactly [fuel] frames. *)
Theorem X7_quiet_run_keeps_drawing (E : environment) (fuel : nat) :
  window_created E = true -> glad_loaded E = true ->
  should_close (window0 E) = false ->
  keys (window0 E) GLFW_KEY_ESCAPE <> GLFW_PRESS ->
  (forall k, (k < fuel)%nat -> forallb is_quiet (pending E k) = true) ->
  exit_status E fuel = None /\
  filter is_draw (trace E fuel) =
    repeat (glDrawElements GL_TRIANGLES 6 GL_UNSIGNED_INT 0) fuel.
Proof.
  intros Hw Hg Hc He Hq.
  destruct (run_result E fuel Hw Hg)
    as [(Hs & Ht & _) | (n & Hn & _ & Hclosing & _)].
  - split; [exact Hs |].
    now rewrite Ht, world_at_draws, ready_draws.
  - destruct (ready_quiet E n Hc He) as [Hopen _].
    + intros k Hk. apply Hq. lia.
    + rewrite Hopen in Hclosing. discriminate Hclosing.
Qed.

Lemma X7_quiet_run_keeps_drawing_witness :
  exit_status left_alone 5 = None /\
  filter is_draw (trace left_alone 5) =
    repeat (glDrawElements GL_TRIANGLES 6 GL_UNSIGNED_INT 0) 5.
Proof.
  apply (X7_quiet_run_keeps_drawing left_alone 5).
  - reflexivity.
  - reflexivity.
  - reflexivity.
  - discriminate.
  - intros k _. reflexivity.
Defined.

(** X8.  A close request costs no further frame.  From a window that is
    not closing and on which escape is not pressed, if the polls of turns 0
    to [k - 1] deliver neither a close request nor a press of escape and
    the poll of turn [k] delivers a close request, then [main] returns 0
    having drawn exactly [k + 1] frames: the next test leaves the loop. *)
Theorem X8_frames_until_close_request (E : environment) (k fuel : nat) :
  window_created E = true -> glad_loaded E = true ->
  should_close (window0 E) = false ->
  keys (window0 E) GLFW_KEY_ESCAPE <> GLFW_PRESS ->
  (forall j, (j < k)%nat -> forallb is_quiet (pending E j) = true) ->
  In CloseRequested (pending E k) ->
  (k + 2 <= fuel)%nat ->
  exit_status E fuel = Some 0 /\
  filter is_draw (trace E fuel) =
    repeat (glDrawElements GL_TRIANGLES 6 GL_UNSIGNED_INT 0) (k + 1).
Proof.
  intros Hw Hg Hc He Hq Hreq Hfuel.
  destruct (run_closed_at E (S k) fuel Hw Hg) as [Hs Ht].
  - intros j Hj. apply (ready_quiet E j Hc He).
    intros i Hi. apply Hq. lia.
  - now apply closing_after_request.
  - lia.
  - split; [exact Hs |].
    rewrite (finished_draws E (S k) fuel Ht). now rewrite Nat.add_1_r.
Qed.

Lemma X8_frames_until_close_request_witness :
  exit_status closed_by_user 4 = Some 0 /\
  filter is_draw (trace closed_by_user 4) =
    repeat (glDrawElements GL_TRIANGLES 6 GL_UNSIGNED_INT 0) 3.
Proof.
  apply (X8_frames_until_close_request closed_by_user 2 4).
  - reflexivity.
  - reflexivity.
  - reflexivity.
  - discriminate.
  - intros [| [| j]] Hj; [reflexivity | reflexivity | lia].
  - simpl. auto.
  - apply Nat.le_refl.
Defined.

(** X9.  Escape costs one more frame.  Under the same quiet start, if the
    poll of turn [k] leaves escape pressed and delivers no close request,
    then [main] returns 0 having drawn exactly [k + 2] frames: the turn in
    which [processInput] sees the key and asks for the window to close
    still renders its frame, and only the test after it leaves the loop. *)
Theorem X9_frames_until_escape (E : environment) (k fuel : nat) :
  window_created E = true -> glad_loaded E = true ->
  should_close (window0 E) = false ->
  keys (window0 E) GLFW_KEY_ESCAPE <> GLFW_PRESS ->
  (forall j, (j < k)%nat -> forallb is_quiet (pending E j) = true) ->
  escape_after (pending E k) = Some GLFW_PRESS ->
  existsb is_close_request (pending E k) = false ->
  (k + 3 <= fuel)%nat ->
  exit_status E fuel = Some 0 /\
  filter is_draw (trace E fuel) =
    repeat (glDrawElements GL_TRIANGLES 6 GL_UNSIGNED_INT 0) (k + 2).
Proof.
  intros Hw Hg Hc He Hq Hesc Hreq Hfuel.
  assert (forall j, (j <= k)%nat ->
            should_close (win (world_at E (ready E) j)) = false /\
            escape_pressed (win (world_at E (ready E) j)) = false) as Hquiet.
  { intros j Hj. apply (ready_quiet E j Hc He).
    intros i Hi. apply Hq. lia. }
  destruct (run_closed_at E (S (S k)) fuel Hw Hg) as [Hs Ht].
  - intros j Hj. destruct (Nat.eq_dec j (S k)) as [-> | Hne].
    + destruct (Hquiet k (Nat.le_refl k)) as [Hck Hek].
      rewrite world_at_win_S, Hek.
      now rewrite poll_window_no_close_request.
    + apply Hquiet. lia.
  - now apply closing_after_escape.
  - lia.
  - split; [exact Hs |].
    rewrite (finished_draws E (S (S k)) fuel Ht).
    now replace (k + 2)%nat with (S (S k)) by lia.
Qed.

Lemma X9_frames_until_escape_witness :
  exit_status escape_tapped 4 = Some 0 /\
  filter is_draw (trace escape_tapped 4) =
    repeat (glDrawElements GL_TRIANGLES 6 GL_UNSIGNED_INT 0) 3.
Proof.
  apply (X9_frames_until_escape escape_tapped 1 4).
  - reflexivity.
  - reflexivity.
  - reflexivity.
  - discriminate.
  - intros [| j] Hj; [reflexivity | lia].
  - reflexivity.
  - reflexivity.
  - apply Nat.le_refl.
Defined.

(** ** What a run does and does not call *)

Lemma setup_gl_free :
  filter is_gl (window_calls ++ loader_calls) = [].
Proof. reflexivity. Qed.

(** X1.  No OpenGL entry point is called before the loader has succeeded.
    Every run is a stretch without any OpenGL call followed by the rest,
    and the rest is empty unless the stretch ends with [gladLoadGLLoader]
    and both the window and the loader were obtained; on either error exit
    the run makes no OpenGL call at all. *)
Theorem X1_no_gl_call_before_the_loader (E : environment) (fuel : nat) :
  (exists pre post : list call,
     trace E fuel = pre ++ post /\
     filter is_gl pre = [] /\
     (post = [] \/
      (last pre glfwInit = gladLoadGLLoader /\
       window_created E = true /\ glad_loaded E = true))) /\
  (exit_status E fuel = Some (-1) -> filter is_gl (trace E fuel) = []).
Proof.
  by_shape E fuel; (split; [| intro; try discriminate; reflexivity]).
  - eexists _, []. rewrite app_nil_r. repeat split; auto.
  - eexists _, []. rewrite app_nil_r. repeat split; auto.
  - exists (window_calls ++ loader_calls),
      (shader_calls E ++ buffer_calls E ++ flat_map (frame_calls E) fs).
    rewrite <- app_assoc. repeat split; auto.
  - exists (window_calls ++ loader_calls),
      (shader_calls E ++ buffer_calls E ++ flat_map (frame_calls E) fs ++
       [glfwWindowShouldClose] ++ cleanup_calls E).
    rewrite <- app_assoc. repeat split; auto.
Qed.

Lemma X1_no_gl_call_before_the_loader_witness :
  filter is_gl (trace no_loader 3) = [] /\
  filter is_gl (trace no_window 3) = [].
Proof.
  split.
  - apply (proj2 (X1_no_gl_call_before_the_loader no_loader 3)). reflexivity.
  - apply (proj2 (X1_no_gl_call_before_the_loader no_window 3)). reflexivity.
Defined.

Lemma in_filter_nil (p : call -> bool) (c : call) (l : list call) :
  filter p l = [] -> p c = true -> ~ In c l.
Proof.
  intros Hnil Hp Hin.
  assert (In c (filter p l)) as H by (apply filter_In; auto).
  now rewrite Hnil in H.
Qed.

(** X2.  [glfwTerminate] closes the run.  It is called exactly in the runs
    in which the window could not be created or [main] returns 0; there it
    is the last call of the run and the only call that releases anything:
    nothing is asked of GLFW or OpenGL after it, and it is not called
    twice. *)
Theorem X2_terminate_is_the_last_call (E : environment) (fuel : nat) :
  (In glfwTerminate (trace E fuel) <->
   exit_status E fuel = Some 0 \/ window_created E = false) /\
  (In glfwTerminate (trace E fuel) ->
   last (trace E fuel) glfwInit = glfwTerminate /\
   filter is_release (trace E fuel) = [glfwTerminate]).
Proof.
  by_shape E fuel.
  - split; [split; [auto | intros _; simpl; auto 10] |].
    intros _. split; reflexivity.
  - assert (~ In glfwTerminate
              (window_calls ++ loader_calls ++
               [cout Failed_to_initialize_GLAD])) as Hno
      by (apply (in_filter_nil is_release); reflexivity).
    split; [split |]; try (intro H; now destruct (Hno H)).
    intros [H | H]; [discriminate H | congruence].
  - assert (~ In glfwTerminate
              (window_calls ++ loader_calls ++ shader_calls E ++
               buffer_calls E ++ flat_map (frame_calls E) fs)) as Hno.
    { apply (in_filter_nil is_release); [| reflexivity].
      rewrite !filter_app.
      rewrite (filter_frames E is_release) by foreign_to_loop.
      statuses E; reflexivity. }
    split; [split |]; try (intro H; now destruct (Hno H)).
    intros [H | H]; [discriminate H | congruence].
  - split; [split; [auto |] |].
    + intros _. rewrite !in_app_iff. do 5 right. simpl. auto 10.
    + intros _. split.
      * change (cleanup_calls E)
          with ([ glDeleteVertexArrays 1 (VAO E);
                  glDeleteBuffers 1 (VBO E);
                  glDeleteBuffers 1 (EBO E) ] ++ [glfwTerminate]).
        rewrite !app_assoc. apply last_last.
      * rewrite !filter_app.
        rewrite (filter_frames E is_release) by foreign_to_loop.
        statuses E; reflexivity.
Qed.

Lemma X2_terminate_is_the_last_call_witness :
  last (trace healthy 4) glfwInit = glfwTerminate /\
  filter is_release (trace healthy 4) = [glfwTerminate].
Proof.
  apply (proj2 (X2_terminate_is_the_last_call healthy 4)).
  apply (proj2 (proj1 (X2_terminate_is_the_last_call healthy 4))).
  left. reflexivity.
Defined.

(** X3.  The exit status tells window and loader failures only.  [main]
    returns -1 exactly when the window or the loader could not be obtained,
    on every bound; otherwise it returns 0 or is still in its loop, whatever
    the compile and link statuses were. *)
Theorem X3_exit_status (E : environment) (fuel : nat) :
  (exit_status E fuel = Some (-1) <->
   window_created E = false \/ glad_loaded E = false) /\
  (exit_status E fuel = None \/ exit_status E fuel = Some 0 \/
   exit_status E fuel = Some (-1)).
Proof.
  by_shape E fuel; (split; [split |]); auto;
    intros H; try discriminate H; destruct H; congruence.
Qed.

(** X4.  Standard output is empty exactly when nothing failed that the
    program checks: the window, the loader, the compile status of the
    vertex shader and the link status.  It never holds more than two
    messages. *)
Theorem X4_silent_when_all_is_well (E : environment) (fuel : nat) :
  (output (trace E fuel) = [] <->
   window_created E = true /\ glad_loaded E = true /\
   compile_status E (vertexShader E) = true /\
   link_status E (shaderProgram E) = true) /\
  (List.length (output (trace E fuel)) <= 2)%nat.
Proof.
  by_shape E fuel.
  - split; [split |]; simpl; [discriminate | | lia].
    intros (H & _). congruence.
  - split; [split |]; simpl; [discriminate | | lia].
    intros (_ & H & _). congruence.
  - rewrite !output_app, (output_in_loop _ (frames_in_loop E fs)).
    unfold shader_calls, vertex_check_calls, link_check_calls.
    destruct (compile_status E (vertexShader E));
      destruct (link_status E (shaderProgram E)); simpl;
      (split; [split |]); try lia; try discriminate; auto;
      intros (_ & _ & H1 & H2); discriminate.
  - rewrite !output_app, (output_in_loop _ (frames_in_loop E fs)).
    unfold shader_calls, vertex_check_calls, link_check_calls.
    destruct (compile_status E (vertexShader E));
      destruct (link_status E (shaderProgram E)); simpl;
      (split; [split |]); try lia; try discriminate; auto;
      intros (_ & _ & H1 & H2); discriminate.
Qed.

Lemma X4_silent_when_all_is_well_witness :
  output (trace healthy 4) = [].
Proof.
  apply (proj1 (X4_silent_when_all_is_well healthy 4)).
  repeat split.
Defined.

(** ** Resizes and frames *)

Lemma viewports_app (a b : list call) :
  viewports (a ++ b) = viewports a ++ viewports b.
Proof.
  induction a as [| c a IH]; simpl.
  - reflexivity.
  - destruct c; simpl; rewrite IH; reflexivity.
Qed.

Lemma viewports_frame (E : environment) (escape : bool)
      (sizes : list (Z * Z)) :
  viewports (frame_calls E (escape, sizes)) =
  map (fun s => (0, 0, fst s, snd s)) sizes.
Proof.
  unfold frame_calls. cbn [fst snd]. rewrite !viewports_app.
  assert (viewports (map (fun s => glViewport 0 0 (fst s) (snd s)) sizes) =
          map (fun s => (0, 0, fst s, snd s)) sizes) as ->
    by (induction sizes as [| s sizes IH]; simpl; [| rewrite IH]; reflexivity).
  now destruct escape.
Qed.

Lemma world_at_viewports (E : environment) (w : world) (n : nat) :
  resize_callback w = true ->
  viewports (log (world_at E w n)) =
  viewports (log w) ++
  flat_map (fun k => map (fun s => (0, 0, fst s, snd s))
                         (resizes (pending E k)))
           (seq (polled w) n).
Proof.
  revert w; induction n as [| n IH]; intros w Hcb.
  - simpl. now rewrite app_nil_r.
  - cbn [world_at seq flat_map].
    rewrite IH by (rewrite after_turn_exact; exact Hcb).
    rewrite after_turn_exact. cbn [log polled].
    now rewrite Hcb, viewports_app, viewports_frame, <- app_assoc.
Qed.

Lemma frame_polls (E : environment) (f : bool * list (Z * Z)) :
  filter is_poll (frame_calls E f) = [glfwPollEvents].
Proof.
  destruct f as [escape sizes]. unfold frame_calls.
  rewrite !filter_app, filter_viewports by reflexivity.
  now destruct escape.
Qed.

Lemma world_at_polls (E : environment) (w : world) (n : nat) :
  List.length (filter is_poll (log (world_at E w n))) =
  (List.length (filter is_poll (log w)) + n)%nat.
Proof.
  revert w; induction n as [| n IH]; intro w.
  - simpl. lia.
  - cbn [world_at]. rewrite IH, after_turn_exact. cbn [log].
    rewrite filter_app, frame_polls, length_app. simpl. lia.
Qed.

Lemma ready_viewports (E : environment) : viewports (log (ready E)) = [].
Proof. cbn [ready log]. rewrite !viewports_app. statuses E; reflexivity. Qed.

Lemma ready_polls (E : environment) : filter is_poll (log (ready E)) = [].
Proof. cbn [ready log]. rewrite !filter_app. statuses E; reflexivity. Qed.

(** X10.  The viewport follows the framebuffer, and nothing else sets it.
    The [glViewport] calls of a run are, in order, one for each resize
    event delivered by the polls the run has made, with origin (0, 0) and
    the width and height of that event; [main] itself never sets the
    viewport, and a run without resize events makes no [glViewport] call. *)
Theorem X10_viewport_follows_resizes (E : environment) (fuel : nat) :
  viewports (trace E fuel) =
  flat_map (fun k => map (fun s => (0, 0, fst s, snd s))
                         (resizes (pending E k)))
           (seq 0 (List.length (filter is_poll (trace E fuel)))).
Proof.
  destruct (window_created E) eqn:Hw; [destruct (glad_loaded E) eqn:Hg |].
  - destruct (run_result E fuel Hw Hg)
      as [(_ & Ht & _) | (n & _ & _ & _ & _ & Ht)]; rewrite Ht.
    + rewrite world_at_viewports, world_at_polls by reflexivity.
      now rewrite ready_viewports, ready_polls.
    + rewrite viewports_app, !filter_app, !length_app.
      rewrite world_at_viewports, world_at_polls by reflexivity.
      rewrite ready_viewports, ready_polls. simpl.
      now rewrite app_nil_r, Nat.add_0_r.
  - unfold trace. now rewrite (main_no_loader E fuel Hw Hg).
  - unfold trace. now rewrite (main_no_window E fuel Hw).
Qed.

(** X11.  Every frame is cleared, drawn, shown and polled, in that order.
    Cut at the tests of its loop, a run consists of turns whose rendering
    calls are exactly: the clear colour, the clear, the use of the program
    created during setup, the binding of the vertex array generated during
    setup, the draw, the buffer swap and the poll; the turn of the test that
    leaves the loop has none.  So a run makes as many draws as swaps as
    polls. *)
Theorem X11_frames_clear_draw_swap_poll (E : environment) (fuel : nat) :
  (exists frames last_test : list (list call),
     turns (trace E fuel) = frames ++ last_test /\
     Forall (fun t => filter is_frame_step t =
                        [ glClearColor 0.2 0.3 0.3 1.0;
                          glClear GL_COLOR_BUFFER_BIT;
                          glUseProgram (shaderProgram E);
                          glBindVertexArray (VAO E);
                          glDrawElements GL_TRIANGLES 6 GL_UNSIGNED_INT 0;
                          glfwSwapBuffers;
                          glfwPollEvents ])
            frames /\
     Forall (fun t => filter is_frame_step t = []) last_test /\
     (List.length last_test <= 1)%nat) /\
  List.length (filter is_draw (trace E fuel)) =
    List.length (filter is_swap (trace E fuel)) /\
  List.length (filter is_swap (trace E fuel)) =
    List.length (filter is_poll (trace E fuel)).
Proof.
  assert (forall f, filter is_frame_step (frame_calls E f) =
                    [ glClearColor 0.2 0.3 0.3 1.0;
                      glClear GL_COLOR_BUFFER_BIT;
                      glUseProgram (shaderProgram E);
                      glBindVertexArray (VAO E);
                      glDrawElements GL_TRIANGLES 6 GL_UNSIGNED_INT 0;
                      glfwSwapBuffers;
                      glfwPollEvents ]) as Hframe.
  { intros [escape sizes]. unfold frame_calls.
    rewrite !filter_app, filter_viewports by reflexivity.
    now destruct escape. }
  assert (forall (p : call -> bool) (fs : list (bool * list (Z * Z))),
            (forall f, List.length (filter p (frame_calls E f)) = 1%nat) ->
            List.length (filter p (flat_map (frame_calls E) fs)) =
            List.length fs) as Hcount.
  { intros p fs Hp. induction fs as [| f fs IH]; cbn [flat_map];
      [reflexivity |].
    rewrite filter_app, length_app, Hp, IH. reflexivity. }
  assert (forall f, List.length (filter is_swap (frame_calls E f)) = 1%nat)
    as Hswap.
  { intros [escape sizes]. unfold frame_calls.
    rewrite !filter_app, filter_viewports by reflexivity.
    now destruct escape. }
  split.
  - destruct (window_created E) eqn:Hw; [destruct (glad_loaded E) eqn:Hg |].
    + destruct (split_turns_run E fuel Hw Hg) as (fs & _ & Hturns).
      assert (Forall (fun t => filter is_frame_step t =
                                 [ glClearColor 0.2 0.3 0.3 1.0;
                                   glClear GL_COLOR_BUFFER_BIT;
                                   glUseProgram (shaderProgram E);
                                   glBindVertexArray (VAO E);
                                   glDrawElements GL_TRIANGLES 6
                                                  GL_UNSIGNED_INT 0;
                                   glfwSwapBuffers;
                                   glfwPollEvents ])
                (map (frame_calls E) fs)) as Hall.
      { apply Forall_forall. intros t Ht.
        apply in_map_iff in Ht as (f & <- & _). apply Hframe. }
      destruct Hturns as [[_ ->] | [_ ->]].
      * exists (map (frame_calls E) fs), []. rewrite app_nil_r.
        repeat split; auto.
      * exists (map (frame_calls E) fs),
          [glfwWindowShouldClose :: cleanup_calls E].
        repeat split; auto.
    + exists [], []. unfold trace. rewrite (main_no_loader E fuel Hw Hg).
      repeat split; auto.
    + exists [], []. unfold trace. rewrite (main_no_window E fuel Hw).
      repeat split; auto.
  - by_shape E fuel; try (split; reflexivity).
    + rewrite !filter_app, !length_app, !Hcount
        by (first [exact Hswap | intro f; rewrite ?frame_draws, ?frame_polls;
                                 reflexivity]).
      split; statuses E; reflexivity.
    + rewrite !filter_app, !length_app, !Hcount
        by (first [exact Hswap | intro f; rewrite ?frame_draws, ?frame_polls;
                                 reflexivity]).
      split; statuses E; reflexivity.
Qed.

(** ** Diagnostics *)

Lemma undiagnosed_app (a b : list call) :
  undiagnosed (a ++ b) = undiagnosed a ++ undiagnosed b.
Proof. apply filter_app. Qed.

Lemma alike_after_turn (E : environment) (compiles links : Z -> bool)
      (shader_log program_log : Z -> string) (w w' : world) :
  alike w w' ->
  alike (after_turn E w)
        (after_turn (with_statuses E compiles links shader_log program_log)
                    w').
Proof.
  intros (Hl & Hwin & Hcb & Hg & Hp). unfold alike.
  rewrite !after_turn_exact.
  cbn [log win resize_callback generated polled].
  rewrite !undiagnosed_app, Hl, Hwin, Hcb, Hg, Hp.
  repeat split; reflexivity.
Qed.

Lemma alike_world_at (E : environment) (compiles links : Z -> bool)
      (shader_log program_log : Z -> string) (n : nat) (w w' : world) :
  alike w w' ->
  alike (world_at E w n)
        (world_at (with_statuses E compiles links shader_log program_log)
                  w' n).
Proof.
  revert w w'; induction n as [| n IH]; intros w w' H; [exact H |].
  cbn [world_at]. apply IH. now apply alike_after_turn.
Qed.

Lemma undiagnosed_checks (E : environment) :
  undiagnosed (vertex_check_calls E) = [] /\
  undiagnosed (link_check_calls E) = [].
Proof.
  unfold vertex_check_calls, link_check_calls.
  destruct (compile_status E (vertexShader E));
    destruct (link_status E (shaderProgram E)); split; reflexivity.
Qed.

Lemma undiagnosed_shader_calls (E : environment) :
  undiagnosed (shader_calls E) =
  [ glCreateShader GL_VERTEX_SHADER;
    glShaderSource (vertexShader E) 1 vertexShaderSource;
    glCompileShader (vertexShader E);
    glGetShaderiv (vertexShader E) GL_COMPILE_STATUS;
    glCreateShader GL_FRAGMENT_SHADER;
    glShaderSource (fragmentShader E) 1 fragmentShaderSource;
    glCompileShader (fragmentShader E);
    glCreateProgram;
    glAttachShader (shaderProgram E) (vertexShader E);
    glAttachShader (shaderProgram E) (fragmentShader E);
    glLinkProgram (shaderProgram E);
    glGetProgramiv (shaderProgram E) GL_LINK_STATUS;
    glDeleteShader (vertexShader E);
    glDeleteShader (fragmentShader E) ].
Proof.
  destruct (undiagnosed_checks E) as [Hv Hl].
  unfold shader_calls. rewrite !undiagnosed_app, Hv, Hl. reflexivity.
Qed.

Lemma alike_ready (E : environment) (compiles links : Z -> bool)
      (shader_log program_log : Z -> string) :
  alike (ready E)
        (ready (with_statuses E compiles links shader_log program_log)).
Proof.
  unfold alike, ready. cbn [log win resize_callback generated polled].
  split; [| repeat split].
  rewrite !undiagnosed_app, !undiagnosed_shader_calls. reflexivity.
Qed.

Lemma run_open (E : environment) (fuel : nat) :
  window_created E = true -> glad_loaded E = true ->
  (forall k, (k < fuel)%nat ->
             should_close (win (world_at E (ready E) k)) = false) ->
  exit_status E fuel = None /\
  trace E fuel = log (world_at E (ready E) fuel).
Proof.
  intros Hw Hg Hopen.
  destruct (run_result E fuel Hw Hg)
    as [(Hs & Ht & _) | (n & Hn & _ & Hclosing & _)]; [auto |].
  rewrite (Hopen n Hn) in Hclosing. discriminate Hclosing.
Qed.

(** X13.  A shader that fails changes nothing but the diagnostics.  Between
    two environments that differ only in compile statuses, link statuses
    and info logs, [main] returns the same status, and the runs are the
    same call for call once the info-log requests and the two failure
    messages are taken out: the program goes on to create, link, use and
    draw with whatever the driver made of the shaders. *)
Theorem X13_shader_failure_changes_only_diagnostics
        (E : environment) (compiles links : Z -> bool)
        (shader_log program_log : Z -> string) (fuel : nat) :
  exit_status (with_statuses E compiles links shader_log program_log) fuel =
    exit_status E fuel /\
  undiagnosed
    (trace (with_statuses E compiles links shader_log program_log) fuel) =
    undiagnosed (trace E fuel).
Proof.
  set (E' := with_statuses E compiles links shader_log program_log).
  assert (forall n, alike (world_at E (ready E) n)
                          (world_at E' (ready E') n)) as Halike
    by (intro n; apply alike_world_at, alike_ready).
  destruct (window_created E) eqn:Hw; [destruct (glad_loaded E) eqn:Hg |].
  - destruct (run_result E fuel Hw Hg)
      as [(Hs & Ht & Hopen) | (n & Hn & Hopen & Hclosing & Hs & Ht)].
    + destruct (run_open E' fuel Hw Hg) as [Hs' Ht'].
      { intros k Hk. destruct (Halike k) as (_ & <- & _). now apply Hopen. }
      rewrite Hs, Hs', Ht, Ht'. split; [reflexivity |].
      destruct (Halike fuel) as (Hl & _). now rewrite Hl.
    + destruct (run_closed_at E' n fuel Hw Hg) as [Hs' Ht'].
      { intros k Hk. destruct (Halike k) as (_ & <- & _). now apply Hopen. }
      { destruct (Halike n) as (_ & <- & _). exact Hclosing. }
      { exact Hn. }
      rewrite Hs, Hs', Ht, Ht'. split; [reflexivity |].
      rewrite !undiagnosed_app.
      destruct (Halike n) as (Hl & _). now rewrite Hl.
  - unfold exit_status, trace.
    rewrite (main_no_loader E fuel Hw Hg), (main_no_loader E' fuel Hw Hg).
    split; reflexivity.
  - unfold exit_status, trace.
    rewrite (main_no_window E fuel Hw), (main_no_window E' fuel Hw).
    split; reflexivity.
Qed.
